(** * The filesystem bridge of the script engine: FileSystemJsObject.cpp

    A shallow embedding of the six dispatchers ([ReadCallback],
    [ReadFromFileCallback], [WriteCallback], [MoveCallback], [RemoveCallback],
    [StatCallback]), of the completion handlers they hand to the filesystem
    service, and of the line splitting done by the streaming read. *)

From Stdlib Require Import ZArith.
From Stdlib.Strings Require Import Byte.
From stdpp Require Import base gmap strings list.

Local Open Scope string_scope.
Local Open Scope list_scope.

(** ** Script values *)

(** [std::vector<uint8_t>]: file content as raw bytes. *)
Abbreviation StringBuffer := (list byte).

(** The script values the bridge exchanges with the engine.  An object is
    the list of its own properties in creation order. *)
#[warnings="-register-all"] Inductive JsValue : Type :=
| JsUndefined
| JsBoolean (b : bool)
| JsNumber (n : Z)
| JsString (s : string)
| JsFunction (id : nat)
| JsObject (properties : list (string * JsValue)).

Abbreviation JsValueList := (list JsValue).

#[global] Instance JsValue_inhabited : Inhabited JsValue := populate JsUndefined.

(** Modelled from the spec: [JsValue::IsFunction] (JsValue.cpp is not part of
    the sources at hand).  The spec: "IsFunction(value) -> bool: used purely
    for validation, never throws". *)
Definition IsFunction (v : JsValue) : bool :=
  match v with JsFunction _ => true | _ => false end.

(** [v8::Value::IsObject]. *)
Definition IsObject (v : JsValue) : bool :=
  match v with JsObject _ => true | _ => false end.

(** Modelled from the spec: [JsEngine::NewObject] (JsEngine.cpp is not part
    of the sources at hand): the "otherwise-normal result object" starts
    without properties. *)
Definition NewObject : JsValue := JsObject [].

Fixpoint set_field (name : string) (v : JsValue) (ps : list (string * JsValue))
  : list (string * JsValue) :=
  match ps with
  | [] => [(name, v)]
  | (k, old) :: rest =>
      if String.eqb k name then (k, v) :: rest else (k, old) :: set_field name v rest
  end.

Fixpoint get_field (name : string) (ps : list (string * JsValue)) : option JsValue :=
  match ps with
  | [] => None
  | (k, v) :: rest => if String.eqb k name then Some v else get_field name rest
  end.

(** Modelled from the spec: [JsValue::SetProperty] (JsValue.cpp is not part
    of the sources at hand).  The spec: handlers "attach an error field" to
    the result object and copy the stat fields into it; a property is set, or
    overwritten when the object has it already. *)
Definition SetProperty (name : string) (v : JsValue) (obj : JsValue) : JsValue :=
  match obj with
  | JsObject ps => JsObject (set_field name v ps)
  | other => other
  end.

Definition GetProperty (name : string) (obj : JsValue) : option JsValue :=
  match obj with
  | JsObject ps => get_field name ps
  | _ => None
  end.

Definition HasProperty (name : string) (obj : JsValue) : bool :=
  match GetProperty name obj with Some _ => true | None => false end.

(** Modelled from the spec: [Utils::StringBufferToV8String] (Utils.cpp is
    not part of the sources at hand).  The spec: the buffer is "converted
    into a script-owned buffer"; the script value is the string of the
    bytes. *)
Definition StringBufferToV8String (b : StringBuffer) : JsValue :=
  JsString (String.string_of_list_byte b).

(** Modelled from the spec: [JsValue::SetStringBufferProperty] (JsValue.cpp
    is not part of the sources at hand): [SetProperty] with the converted
    buffer. *)
Definition SetStringBufferProperty (name : string) (b : StringBuffer) (obj : JsValue)
  : JsValue :=
  SetProperty name (StringBufferToV8String b) obj.

(** Modelled from the spec: [JsValue::AsString] (JsValue.cpp is not part of
    the sources at hand).  The spec: "AsString(value) -> text: fails with
    TypeError if the value is not string-like". *)
Definition AsString (v : JsValue) : option string :=
  match v with JsString s => Some s | _ => None end.

(** Modelled from the spec: [JsValue::AsStringBuffer] (JsValue.cpp is not part
    of the sources at hand).  The spec: "AsBuffer(value) -> bytes: fails with
    TypeError if not a buffer-like value"; buffers travel as script strings
    (see [SetStringBufferProperty]). *)
Definition AsStringBuffer (v : JsValue) : option StringBuffer :=
  match v with JsString s => Some (String.list_byte_of_string s) | _ => None end.

(** [IFileSystem::StatResult]. *)
Record StatResult : Type := { exists_ : bool; lastModified : Z }.

(** ** Line splitting *)

(** An iterator into the content is modelled by the part of the buffer from
    its position up to [contentEnd]; [contentEnd] itself is the empty rest. *)

Definition IsEndOfLine (c : byte) : bool :=
  (Byte.to_N c =? 10)%N || (Byte.to_N c =? 13)%N.

Fixpoint SkipEndOfLine (ii : StringBuffer) : StringBuffer :=
  match ii with
  | [] => []
  | c :: rest => if IsEndOfLine c then SkipEndOfLine rest else ii
  end.

Fixpoint AdvanceToEndOfLine (ii : StringBuffer) : StringBuffer :=
  match ii with
  | [] => []
  | c :: rest => if negb (IsEndOfLine c) then AdvanceToEndOfLine rest else ii
  end.

(** [StringBuffer(first, last)]: the bytes between two iterator positions. *)
Definition StringBuffer_range (first last : StringBuffer) : StringBuffer :=
  take (length first - length last) first.

(** ** The engine, the filesystem service and the world around the bridge *)

(** A script exception caught by a [v8::TryCatch], as far as the bridge
    looks at it: the text that describes it. *)
Record JsException : Type := { description : string }.

(** Modelled from the spec: [JsError::ExceptionToString] (JsError.cpp is not
    part of the sources at hand).  The spec only says that the handler
    "capture[s] the exception description". *)
Definition ExceptionToString (e : JsException) : string := description e.

(** What the bridge can observe of a script function it calls. *)
Inductive CallOutcome : Type :=
| Returned
| Thrown (e : JsException).

(** One invocation of a stored callback handle: the Callback Group it was
    taken from, its position in the group, the function and the arguments. *)
Record CallEvent : Type := {
  group : nat;
  index : nat;
  callee : JsValue;
  arguments : JsValueList
}.

(** The call the bridge makes on position [i] of group [id]. *)
Definition call_event (id i : nat) (f : JsValue) (args : JsValueList) : CallEvent :=
  {| group := id; index := i; callee := f; arguments := args |}.

(** Script functions are opaque to the bridge: what a call does may depend
    on everything the script has been called with so far.  Only the outcome
    of a call is represented; what a script function does to the engine
    while it runs (it may call the dispatchers again) is not, so the
    properties below speak of the calls the bridge makes, not of the state a
    script function leaves behind. *)
Definition Script : Type := list CallEvent -> JsValue -> JsValueList -> CallOutcome.

(** The closures handed to the filesystem service capture the weak engine
    reference and the registry token [weakCallback], nothing else. *)
Inductive Completion : Type :=
| ReadDone (weakCallback : nat)
| ReadFromFileDone (weakCallback : nat)
| WriteDone (weakCallback : nat)
| MoveDone (weakCallback : nat)
| RemoveDone (weakCallback : nat)
| StatDone (weakCallback : nat).

(** The calls made on [IFileSystem]. *)
Inductive FsRequest : Type :=
| FsRead (fileName : string) (done : Completion)
| FsWrite (fileName : string) (content : StringBuffer) (done : Completion)
| FsMove (fromPath toPath : string) (done : Completion)
| FsRemove (fileName : string) (done : Completion)
| FsStat (fileName : string) (done : Completion).

(** The part of [JsEngine] the bridge uses: the stored Callback Groups and
    the global object of the execution context. *)
Record JsEngine : Type := {
  jsWeakValuesLists : gmap nat JsValueList;
  nextWeakValuesID : nat;
  globalObject : list (string * JsValue)
}.

(** [weakJsEngine] is [None] once the engine has been destroyed.
    [fileSystem] lists the requests submitted so far and [calls] the script
    invocations made so far, oldest first. *)
Record World : Type := {
  weakJsEngine : option JsEngine;
  script : Script;
  fileSystem : list FsRequest;
  calls : list CallEvent
}.

(** The registry with a group added under the next token, and with the group
    of a token removed. *)
Definition emplace (values : JsValueList) (e : JsEngine) : JsEngine :=
  {| jsWeakValuesLists := <[nextWeakValuesID e := values]> (jsWeakValuesLists e);
     nextWeakValuesID := S (nextWeakValuesID e);
     globalObject := globalObject e |}.

Definition erase (id : nat) (e : JsEngine) : JsEngine :=
  {| jsWeakValuesLists := delete id (jsWeakValuesLists e);
     nextWeakValuesID := nextWeakValuesID e;
     globalObject := globalObject e |}.

Definition with_engine (e : JsEngine) (w : World) : World :=
  {| weakJsEngine := Some e; script := script w;
     fileSystem := fileSystem w; calls := calls w |}.

Definition record_calls (evs : list CallEvent) (w : World) : World :=
  {| weakJsEngine := weakJsEngine w; script := script w;
     fileSystem := fileSystem w; calls := calls w ++ evs |}.

Definition submit (request : FsRequest) (w : World) : World :=
  {| weakJsEngine := weakJsEngine w; script := script w;
     fileSystem := fileSystem w ++ [request]; calls := calls w |}.

(** ** A state and exception monad for native code *)

Inductive Fault : Type :=
| ScriptException (message : string)  (* Utils::ThrowExceptionInJS *)
| NativeException (what : string)     (* a C++ exception leaves the function *)
| ProtocolViolation                   (* unknown token, index outside a group *)
| OutOfFuel.

Inductive Result (A : Type) : Type :=
| Done (a : A)
| Raised (f : Fault).
Arguments Done {A} a.
Arguments Raised {A} f.

Definition Native (A : Type) : Type := World -> Result A * World.

Definition ret {A} (a : A) : Native A := fun w => (Done a, w).

Definition raise {A} (f : Fault) : Native A := fun w => (Raised f, w).

Definition bind {A B} (m : Native A) (k : A -> Native B) : Native B :=
  fun w => match m w with
           | (Done a, w') => k a w'
           | (Raised f, w') => (Raised f, w')
           end.

Notation "'let*' x ':=' m 'in' k" := (bind m (fun x => k))
  (at level 10, x pattern, m at level 100, k at level 200).
Notation "m ';;' k" := (bind m (fun _ => k))
  (at level 100, k at level 200, right associativity).

(** Modelled from the spec: [Utils::ThrowExceptionInJS] (Utils.cpp is not
    part of the sources at hand).  The spec: "a synchronous ArgumentError
    (surfaced as a script-level exception)". *)
Definition ThrowExceptionInJS {A} (message : string) : Native A :=
  raise (ScriptException message).

(** Modelled from the spec: [JsEngine::FromArguments] (JsEngine.cpp is not
    part of the sources at hand): the engine whose script called the
    dispatcher, alive at that moment.  [JsEngine::ConvertArguments] yields the
    argument list, called [converted] below. *)
Definition FromArguments : Native JsEngine :=
  fun w => match weakJsEngine w with
           | Some e => (Done e, w)
           | None => (Raised ProtocolViolation, w)
           end.

(** [weakJsEngine.lock()]. *)
Definition lock : Native (option JsEngine) := fun w => (Done (weakJsEngine w), w).

(** Modelled from the spec: [JsEngine::StoreJsValues] (JsEngine.cpp is not
    part of the sources at hand).  The spec: "Store(handles: ordered sequence
    of callback handles) -> token", the token being "a monotonically generated
    ... identifier". *)
Definition StoreJsValues (values : JsValueList) : Native nat :=
  fun w => match weakJsEngine w with
           | None => (Raised ProtocolViolation, w)
           | Some e => (Done (nextWeakValuesID e), with_engine (emplace values e) w)
           end.

(** Modelled from the spec: [JsEngine::TakeJsValues] (JsEngine.cpp is not
    part of the sources at hand).  The spec: "Take(token) -> ordered sequence
    of callback handles (removes the group; fails fatally/asserts if the
    token is unknown ...)". *)
Definition TakeJsValues (id : nat) : Native JsValueList :=
  fun w => match weakJsEngine w with
           | None => (Raised ProtocolViolation, w)
           | Some e =>
               match jsWeakValuesLists e !! id with
               | None => (Raised ProtocolViolation, w)
               | Some values => (Done values, with_engine (erase id e) w)
               end
           end.

(** Modelled from the spec: [Platform::WithFileSystem] (Platform.cpp is not
    part of the sources at hand) running the submitting closure.  The spec:
    the dispatcher "submits an operation to the filesystem service, passing a
    completion handler closure". *)
Definition WithFileSystem (request : FsRequest) : Native unit :=
  fun w => (Done tt, submit request w).

(** [v8::Function::Call]: runs the script function; the caller inspects the
    outcome through its [v8::TryCatch]. *)
Definition Function_Call (id i : nat) (f : JsValue) (args : JsValueList)
  : Native CallOutcome :=
  fun w => (Done (script w (calls w) f args), record_calls [call_event id i f args] w).

(** Modelled from the spec: [JsValue::Call] (JsValue.cpp is not part of the
    sources at hand), as [jsValues[i].Call(args)] on the group taken under
    token [id].  The spec: "Invoke the appropriate callback handle(s) with
    the converted values"; the handlers do not look at what the callback
    does. *)
Definition Call (id : nat) (jsValues : JsValueList) (i : nat) (args : JsValueList)
  : Native unit :=
  match jsValues !! i with
  | None => raise ProtocolViolation
  | Some f => Function_Call id i f args ;; ret tt
  end.

(** A conversion that fails leaves the dispatcher as a C++ exception. *)
Definition convert {A} (what : string) (o : option A) : Native A :=
  match o with
  | Some a => ret a
  | None => raise (NativeException what)
  end.

(** ** The dispatchers *)

Definition ReadCallback (converted : JsValueList) : Native unit :=
  let* _ := FromArguments in
  if negb (Nat.eqb (length converted) 2) then
    ThrowExceptionInJS "_fileSystem.read requires 2 parameters"
  else if negb (IsFunction (converted !!! 1)) then
    ThrowExceptionInJS "Second argument to _fileSystem.read must be a function"
  else
    let values := [converted !!! 1] in
    let* weakCallback := StoreJsValues values in
    let* fileName := convert "AsString" (AsString (converted !!! 0)) in
    WithFileSystem (FsRead fileName (ReadDone weakCallback)).

Definition ReadFromFileCallback (converted : JsValueList) : Native unit :=
  let* _ := FromArguments in
  if negb (Nat.eqb (length converted) 3) then
    ThrowExceptionInJS "_fileSystem.readFromFile requires 3 parameters"
  else if negb (IsFunction (converted !!! 1)) then
    ThrowExceptionInJS
      "Second argument to _fileSystem.readFromFile must be a function (listener callback)"
  else if negb (IsFunction (converted !!! 2)) then
    ThrowExceptionInJS
      "Third argument to _fileSystem.readFromFile must be a function (done callback)"
  else
    let values := [converted !!! 1; converted !!! 2] in
    let* weakCallback := StoreJsValues values in
    let* fileName := convert "AsString" (AsString (converted !!! 0)) in
    WithFileSystem (FsRead fileName (ReadFromFileDone weakCallback)).

Definition WriteCallback (converted : JsValueList) : Native unit :=
  let* _ := FromArguments in
  if negb (Nat.eqb (length converted) 3) then
    ThrowExceptionInJS "_fileSystem.write requires 3 parameters"
  else if negb (IsFunction (converted !!! 2)) then
    ThrowExceptionInJS "Third argument to _fileSystem.write must be a function"
  else
    let values := [converted !!! 2] in
    let* weakCallback := StoreJsValues values in
    let* content := convert "AsStringBuffer" (AsStringBuffer (converted !!! 1)) in
    let* fileName := convert "AsString" (AsString (converted !!! 0)) in
    WithFileSystem (FsWrite fileName content (WriteDone weakCallback)).

Definition MoveCallback (converted : JsValueList) : Native unit :=
  let* _ := FromArguments in
  if negb (Nat.eqb (length converted) 3) then
    ThrowExceptionInJS "_fileSystem.move requires 3 parameters"
  else if negb (IsFunction (converted !!! 2)) then
    ThrowExceptionInJS "Third argument to _fileSystem.move must be a function"
  else
    let values := [converted !!! 2] in
    let* weakCallback := StoreJsValues values in
    let* fromPath := convert "AsString" (AsString (converted !!! 0)) in
    let* toPath := convert "AsString" (AsString (converted !!! 1)) in
    WithFileSystem (FsMove fromPath toPath (MoveDone weakCallback)).

Definition RemoveCallback (converted : JsValueList) : Native unit :=
  let* _ := FromArguments in
  if negb (Nat.eqb (length converted) 2) then
    ThrowExceptionInJS "_fileSystem.remove requires 2 parameters"
  else if negb (IsFunction (converted !!! 1)) then
    ThrowExceptionInJS "Second argument to _fileSystem.remove must be a function"
  else
    let values := [converted !!! 1] in
    let* weakCallback := StoreJsValues values in
    let* fileName := convert "AsString" (AsString (converted !!! 0)) in
    WithFileSystem (FsRemove fileName (RemoveDone weakCallback)).

Definition StatCallback (converted : JsValueList) : Native unit :=
  let* _ := FromArguments in
  if negb (Nat.eqb (length converted) 2) then
    ThrowExceptionInJS "_fileSystem.stat requires 2 parameters"
  else if negb (IsFunction (converted !!! 1)) then
    ThrowExceptionInJS "Second argument to _fileSystem.stat must be a function"
  else
    let values := [converted !!! 1] in
    let* weakCallback := StoreJsValues values in
    let* fileName := convert "AsString" (AsString (converted !!! 0)) in
    WithFileSystem (FsStat fileName (StatDone weakCallback)).

(** ** The completion handlers *)

(** The closure [ReadCallback] passes to [IFileSystem::Read]. *)
Definition ReadCallback_done (weakCallback : nat) (content : StringBuffer)
  (error : string) : Native unit :=
  let* jsEngine := lock in
  match jsEngine with
  | None => ret tt
  | Some _ =>
      let result := NewObject in
      let result := SetStringBufferProperty "content" content result in
      let result :=
        if negb (String.eqb error "") then SetProperty "error" (JsString error) result
        else result in
      let* jsValues := TakeJsValues weakCallback in
      Call weakCallback jsValues 0 [result]
  end.

(** The [do ... while] loop of the streaming read, entered at [stringBegin].
    Every round consumes at least one byte of the content, [fuel] bounds the
    number of rounds. *)
Fixpoint ReadFromFile_lines (fuel : nat) (weakCallback : nat) (jsValues : JsValueList)
  (processFunc : JsValue) (stringBegin : StringBuffer) : Native unit :=
  match fuel with
  | O => raise OutOfFuel
  | S fuel' =>
      let stringEnd := AdvanceToEndOfLine stringBegin in
      let jsLine := StringBufferToV8String (StringBuffer_range stringBegin stringEnd) in
      let* tryCatch := Function_Call weakCallback 0 processFunc [jsLine] in
      match tryCatch with
      | Thrown exception =>
          Call weakCallback jsValues 1 [JsString (ExceptionToString exception)]
      | Returned =>
          let stringBegin := SkipEndOfLine stringEnd in
          match stringBegin with
          | _ :: _ => ReadFromFile_lines fuel' weakCallback jsValues processFunc stringBegin
          | [] => Call weakCallback jsValues 1 []
          end
      end
  end.

(** The closure [ReadFromFileCallback] passes to [IFileSystem::Read]. *)
Definition ReadFromFileCallback_done (weakCallback : nat) (content : StringBuffer)
  (error : string) : Native unit :=
  let* jsEngine := lock in
  match jsEngine with
  | None => ret tt
  | Some engine =>
      let* jsValues := TakeJsValues weakCallback in
      if negb (String.eqb error "") then
        Call weakCallback jsValues 1 [JsString error]
      else
        match jsValues !! 0 with
        | None => raise ProtocolViolation
        | Some processFunc =>
            let globalContext := JsObject (globalObject engine) in
            if negb (IsObject globalContext) then
              raise (NativeException "`this` pointer has to be an object")
            else
              let stringBegin := SkipEndOfLine content in
              ReadFromFile_lines (S (length content)) weakCallback jsValues processFunc
                stringBegin
        end
  end.

(** The closure [WriteCallback] passes to [IFileSystem::Write]. *)
Definition WriteCallback_done (weakCallback : nat) (error : string) : Native unit :=
  let* jsEngine := lock in
  match jsEngine with
  | None => ret tt
  | Some _ =>
      let params := if negb (String.eqb error "") then [JsString error] else [] in
      let* jsValues := TakeJsValues weakCallback in
      Call weakCallback jsValues 0 params
  end.

(** The closure [MoveCallback] passes to [IFileSystem::Move]. *)
Definition MoveCallback_done (weakCallback : nat) (error : string) : Native unit :=
  let* jsEngine := lock in
  match jsEngine with
  | None => ret tt
  | Some _ =>
      let params := if negb (String.eqb error "") then [JsString error] else [] in
      let* jsValues := TakeJsValues weakCallback in
      Call weakCallback jsValues 0 params
  end.

(** The closure [RemoveCallback] passes to [IFileSystem::Remove]. *)
Definition RemoveCallback_done (weakCallback : nat) (error : string) : Native unit :=
  let* jsEngine := lock in
  match jsEngine with
  | None => ret tt
  | Some _ =>
      let params := if negb (String.eqb error "") then [JsString error] else [] in
      let* jsValues := TakeJsValues weakCallback in
      Call weakCallback jsValues 0 params
  end.

(** The closure [StatCallback] passes to [IFileSystem::Stat]. *)
Definition StatCallback_done (weakCallback : nat) (statResult : StatResult)
  (error : string) : Native unit :=
  let* jsEngine := lock in
  match jsEngine with
  | None => ret tt
  | Some _ =>
      let result := NewObject in
      let result := SetProperty "exists" (JsBoolean (exists_ statResult)) result in
      let result := SetProperty "lastModified" (JsNumber (lastModified statResult)) result in
      let result :=
        if negb (String.eqb error "") then SetProperty "error" (JsString error) result
        else result in
      let params := [result] in
      let* jsValues := TakeJsValues weakCallback in
      Call weakCallback jsValues 0 params
  end.

(** ** The filesystem service calling back *)

Inductive Operation : Type := read | readFromFile | write | move | remove | stat.

Definition dispatch (op : Operation) : JsValueList -> Native unit :=
  match op with
  | read => ReadCallback
  | readFromFile => ReadFromFileCallback
  | write => WriteCallback
  | move => MoveCallback
  | remove => RemoveCallback
  | stat => StatCallback
  end.

(** What the filesystem service passes to a completion closure. *)
Inductive NativeResult : Type :=
| ReadResult (content : StringBuffer) (error : string)
| ErrorResult (error : string)
| StatOutcome (statResult : StatResult) (error : string).

Definition native_error (r : NativeResult) : string :=
  match r with
  | ReadResult _ error | ErrorResult error | StatOutcome _ error => error
  end.

(** The service invokes the closure it was given with a result of the shape
    of the closure's parameters. *)
Definition complete (k : Completion) (r : NativeResult) : Native unit :=
  match k, r with
  | ReadDone id, ReadResult content error => ReadCallback_done id content error
  | ReadFromFileDone id, ReadResult content error =>
      ReadFromFileCallback_done id content error
  | WriteDone id, ErrorResult error => WriteCallback_done id error
  | MoveDone id, ErrorResult error => MoveCallback_done id error
  | RemoveDone id, ErrorResult error => RemoveCallback_done id error
  | StatDone id, StatOutcome statResult error => StatCallback_done id statResult error
  | _, _ => raise ProtocolViolation
  end.

Definition fits (k : Completion) (r : NativeResult) : bool :=
  match k, r with
  | (ReadDone _ | ReadFromFileDone _), ReadResult _ _ => true
  | (WriteDone _ | MoveDone _ | RemoveDone _), ErrorResult _ => true
  | StatDone _, StatOutcome _ _ => true
  | _, _ => false
  end.

Definition token (k : Completion) : nat :=
  match k with
  | ReadDone id | ReadFromFileDone id | WriteDone id
  | MoveDone id | RemoveDone id | StatDone id => id
  end.

Definition completion_of (request : FsRequest) : Completion :=
  match request with
  | FsRead _ k | FsWrite _ _ k | FsMove _ _ k | FsRemove _ k | FsStat _ k => k
  end.

(** ** Vocabulary of the specification *)

(** The arities and callback positions of the dispatcher table. *)
Definition arity (op : Operation) : nat :=
  match op with
  | read | remove | stat => 2
  | readFromFile | write | move => 3
  end.

Definition callback_positions (op : Operation) : list nat :=
  match op with
  | read | remove | stat => [1]
  | readFromFile => [1; 2]
  | write | move => [2]
  end.

Definition well_formed (op : Operation) (converted : JsValueList) : bool :=
  Nat.eqb (length converted) (arity op)
  && forallb (fun i => IsFunction (converted !!! i)) (callback_positions op).

(** The position, within its Callback Group, of the callback that reports
    the end of the operation. *)
Definition final_index (k : Completion) : nat :=
  match k with
  | ReadFromFileDone _ => 1
  | _ => 0
  end.

(** How often the handle at position [i] of group [id] was invoked. *)
Definition invoked (id i : nat) (ev : CallEvent) : bool :=
  Nat.eqb (group ev) id && Nat.eqb (index ev) i.

Definition invocations (id i : nat) (evs : list CallEvent) : nat :=
  length (List.filter (invoked id i) evs).

(** The error channel of an operation: an [error] property on the result
    object for read and stat, a single string argument for the others. *)
Definition error_path (k : Completion) (ev : CallEvent) : bool :=
  match k with
  | ReadDone _ | StatDone _ =>
      match arguments ev with
      | [JsObject ps] => HasProperty "error" (JsObject ps)
      | _ => false
      end
  | _ =>
      match arguments ev with
      | [JsString _] => true
      | _ => false
      end
  end.

Definition success_path (k : Completion) (ev : CallEvent) : bool :=
  match k with
  | ReadDone _ | StatDone _ =>
      match arguments ev with
      | [JsObject ps] => negb (HasProperty "error" (JsObject ps))
      | _ => false
      end
  | _ =>
      match arguments ev with
      | [] => true
      | _ => false
      end
  end.

(** The lines of a buffer in the words of the specification: the maximal
    runs of bytes that are not terminators, in order; runs of terminators
    separate them and produce no line of their own. *)
Fixpoint BufferToLines (b : StringBuffer) : list StringBuffer :=
  match b with
  | [] => []
  | c :: rest =>
      if IsEndOfLine c then BufferToLines rest
      else match rest with
           | [] => [[c]]
           | d :: _ =>
               if IsEndOfLine d then [c] :: BufferToLines rest
               else match BufferToLines rest with
                    | l :: ls => (c :: l) :: ls
                    | [] => [[c]]
                    end
           end
  end.

(** The calls the streaming read makes for a list of lines still to deliver:
    one per-line call each, until one throws, then the completion call. *)
Fixpoint deliver (s : Script) (id : nat) (processFunc doneFunc : JsValue)
  (history : list CallEvent) (lines : list StringBuffer) : list CallEvent :=
  match lines with
  | [] => [call_event id 1 doneFunc []]
  | l :: rest =>
      let ev := call_event id 0 processFunc [StringBufferToV8String l] in
      match s history processFunc [StringBufferToV8String l] with
      | Thrown e => [ev; call_event id 1 doneFunc [JsString (ExceptionToString e)]]
      | Returned => ev :: deliver s id processFunc doneFunc (history ++ [ev]) rest
      end
  end.

(** The lines the loop visits: those of the buffer, or a single empty one
    when the buffer has none, the loop body running before its test. *)
Definition visited_lines (content : StringBuffer) : list StringBuffer :=
  match BufferToLines content with
  | [] => [[]]
  | ls => ls
  end.

(** The result object of a read, the result object of a stat and the
    parameter list of write, move and remove, as the handlers build them. *)
Definition read_result (content : StringBuffer) (error : string) : JsValue :=
  JsObject (("content", StringBufferToV8String content)
            :: if String.eqb error "" then [] else [("error", JsString error)]).

Definition stat_result (statResult : StatResult) (error : string) : JsValue :=
  JsObject (("exists", JsBoolean (exists_ statResult))
            :: ("lastModified", JsNumber (lastModified statResult))
            :: if String.eqb error "" then [] else [("error", JsString error)]).

Definition error_params (error : string) : JsValueList :=
  if String.eqb error "" then [] else [JsString error].

(** The closure a dispatcher creates, and the Callback Group it stores: the
    values at the callback positions, in order. *)
Definition completion_for (op : Operation) (id : nat) : Completion :=
  match op with
  | read => ReadDone id
  | readFromFile => ReadFromFileDone id
  | write => WriteDone id
  | move => MoveDone id
  | remove => RemoveDone id
  | stat => StatDone id
  end.

Definition stored_values (op : Operation) (converted : JsValueList) : JsValueList :=
  map (fun i => converted !!! i) (callback_positions op).

(** The calls [new] of a completion handler report the end of the operation
    exactly once: some per-line calls first (streaming read only), then one
    call of the last callback of the argument list, which is on the success
    path or on the error path, not both. *)
Definition reports_once (op : Operation) (id : nat) (converted : JsValueList)
  (result : NativeResult) (new : list CallEvent) : Prop :=
  let k := completion_for op id in
  exists (lineCalls : list CallEvent) (finalCall : CallEvent),
    new = lineCalls ++ [finalCall]
    /\ group finalCall = id
    /\ index finalCall = final_index k
    /\ callee finalCall = converted !!! (arity op - 1)
    /\ Forall (fun ev => op = readFromFile /\ group ev = id /\ index ev = 0
                         /\ callee ev = converted !!! 1) lineCalls
    /\ invocations id (final_index k) new = 1
    /\ success_path k finalCall = negb (error_path k finalCall)
    /\ (native_error result <> "" -> error_path k finalCall = true /\ lineCalls = [])
    /\ (native_error result = "" -> op <> readFromFile -> success_path k finalCall = true).

(** ** Concrete worlds *)

Definition engine0 : JsEngine :=
  {| jsWeakValuesLists := ∅; nextWeakValuesID := 0; globalObject := [] |}.

(** A script whose functions always return, and one whose second call
    throws. *)
Definition quiet : Script := fun _ _ _ => Returned.

Definition throws_on_second_call : Script :=
  fun history _ _ =>
    if Nat.eqb (length history) 1 then Thrown {| description := "boom" |}
    else Returned.


Definition fresh_world (s : Script) : World :=
  {| weakJsEngine := Some engine0; script := s; fileSystem := []; calls := [] |}.

Definition torn_down_world : World :=
  {| weakJsEngine := None; script := quiet; fileSystem := []; calls := [] |}.

(** The world after [readFromFile("patterns.ini", f1, f2)], and after a
    [read], a [write] and a [stat] of the same file. *)
Definition streaming_world (s : Script) : World :=
  snd (ReadFromFileCallback [JsString "patterns.ini"; JsFunction 1; JsFunction 2]
         (fresh_world s)).

Definition reading_world : World :=
  snd (ReadCallback [JsString "patterns.ini"; JsFunction 1] (fresh_world quiet)).

Definition writing_world : World :=
  snd (WriteCallback [JsString "patterns.ini"; JsString "[Adblock Plus 2.0]"; JsFunction 1]
         (fresh_world quiet)).

Definition stat_world : World :=
  snd (StatCallback [JsString "patterns.ini"; JsFunction 1] (fresh_world quiet)).

(** The bytes of the text a, LF, b, LF, LF, c, and the same followed by
    the NUL that ends the C string literal. *)
Definition abc : StringBuffer := [x61; x0a; x62; x0a; x0a; x63].

Definition abc_literal : StringBuffer := abc ++ [x00].

(** ** Further vocabulary *)

(** A line holds no terminator. *)
Definition is_line (l : StringBuffer) : bool := forallb (fun c => negb (IsEndOfLine c)) l.

(** The per-line calls for a list of lines, in order. *)
Definition line_calls (id : nat) (processFunc : JsValue) (lines : list StringBuffer)
  : list CallEvent :=
  map (fun l => call_event id 0 processFunc [StringBufferToV8String l]) lines.

(** The name under which an operation is exposed to script, and its arity
    as it is printed in the error message. *)
Definition operation_name (op : Operation) : string :=
  match op with
  | read => "read"
  | readFromFile => "readFromFile"
  | write => "write"
  | move => "move"
  | remove => "remove"
  | stat => "stat"
  end.

Definition arity_digit (op : Operation) : string :=
  match arity op with
  | 2 => "2"
  | _ => "3"
  end.

(** ** Registration of the operations *)

(** [FileSystemJsObject::Setup].  [NewCallback] stands for
    [jsEngine.NewCallback], which wraps a native dispatcher into a script
    function (JsEngine.cpp is not part of the sources at hand). *)
Definition Setup (NewCallback : (JsValueList -> Native unit) -> JsValue) (obj : JsValue)
  : JsValue :=
  let obj := SetProperty "read" (NewCallback ReadCallback) obj in
  let obj := SetProperty "readFromFile" (NewCallback ReadFromFileCallback) obj in
  let obj := SetProperty "write" (NewCallback WriteCallback) obj in
  let obj := SetProperty "move" (NewCallback MoveCallback) obj in
  let obj := SetProperty "remove" (NewCallback RemoveCallback) obj in
  let obj := SetProperty "stat" (NewCallback StatCallback) obj in
  obj.


(** * Properties *)

(** ** Facts about the line scanners *)

Lemma SkipEndOfLine_length (ii : StringBuffer) :
  length (SkipEndOfLine ii) <= length ii.
Proof.
  induction ii as [|c rest IH]; simpl; [lia|].
  destruct (IsEndOfLine c); simpl; lia.
Qed.

Lemma AdvanceToEndOfLine_length (ii : StringBuffer) :
  length (AdvanceToEndOfLine ii) <= length ii.
Proof.
  induction ii as [|c rest IH]; simpl; [lia|].
  destruct (IsEndOfLine c); simpl; lia.
Qed.

(** Where [SkipEndOfLine] stops there is no terminator. *)
Lemma SkipEndOfLine_stops (ii : StringBuffer) c rest :
  SkipEndOfLine ii = c :: rest -> IsEndOfLine c = false.
Proof.
  induction ii as [|d more IH]; simpl; [discriminate|].
  destruct (IsEndOfLine d) eqn:E; [exact IH|].
  intros [= -> _]. exact E.
Qed.

Lemma SkipEndOfLine_terminators (ii : StringBuffer) :
  forallb IsEndOfLine ii = true -> SkipEndOfLine ii = [].
Proof.
  induction ii as [|c rest IH]; simpl; [reflexivity|].
  destruct (IsEndOfLine c); simpl; [exact IH|discriminate].
Qed.

Lemma BufferToLines_SkipEndOfLine (ii : StringBuffer) :
  BufferToLines (SkipEndOfLine ii) = BufferToLines ii.
Proof.
  induction ii as [|c rest IH]; [reflexivity|].
  cbn [SkipEndOfLine]. destruct (IsEndOfLine c) eqn:E.
  - rewrite IH. cbn [BufferToLines]. now rewrite E.
  - reflexivity.
Qed.

Lemma BufferToLines_terminators (ii : StringBuffer) :
  forallb IsEndOfLine ii = true -> BufferToLines ii = [].
Proof.
  intros H. rewrite <- BufferToLines_SkipEndOfLine.
  now rewrite SkipEndOfLine_terminators.
Qed.

Lemma AdvanceToEndOfLine_cons_line (c : byte) (rest : StringBuffer) :
  IsEndOfLine c = false -> AdvanceToEndOfLine (c :: rest) = AdvanceToEndOfLine rest.
Proof. intros Hc. cbn [AdvanceToEndOfLine]. now rewrite Hc. Qed.

Lemma AdvanceToEndOfLine_cons_terminator (c : byte) (rest : StringBuffer) :
  IsEndOfLine c = true -> AdvanceToEndOfLine (c :: rest) = c :: rest.
Proof. intros Hc. cbn [AdvanceToEndOfLine]. now rewrite Hc. Qed.

(** One round of the loop cuts off the first line of the specification. *)
Lemma BufferToLines_round (c : byte) (rest : StringBuffer) :
  IsEndOfLine c = false ->
  BufferToLines (c :: rest) =
    StringBuffer_range (c :: rest) (AdvanceToEndOfLine (c :: rest))
    :: BufferToLines (AdvanceToEndOfLine (c :: rest)).
Proof.
  revert c. induction rest as [|d more IH]; intros c Hc.
  - cbn. now rewrite Hc.
  - rewrite (AdvanceToEndOfLine_cons_line c _ Hc).
    cbn [BufferToLines]. rewrite Hc.
    destruct (IsEndOfLine d) eqn:Hd.
    + rewrite (AdvanceToEndOfLine_cons_terminator d _ Hd).
      unfold StringBuffer_range. cbn [length].
      replace (S (S (length more)) - S (length more)) with 1 by lia.
      cbn [take BufferToLines]. now rewrite Hd.
    + pose proof (IH d Hd) as Hround. cbn [BufferToLines] in Hround.
      rewrite Hd in Hround. rewrite Hround.
      pose proof (AdvanceToEndOfLine_length (d :: more)) as Hlen.
      unfold StringBuffer_range. cbn [length] in *.
      replace (S (S (length more)) - length (AdvanceToEndOfLine (d :: more)))
        with (S (S (length more) - length (AdvanceToEndOfLine (d :: more)))) by lia.
      reflexivity.
Qed.

Lemma AdvanceToEndOfLine_progress (c : byte) (rest : StringBuffer) :
  IsEndOfLine c = false ->
  length (AdvanceToEndOfLine (c :: rest)) <= length rest.
Proof.
  intros Hc. rewrite (AdvanceToEndOfLine_cons_line c _ Hc).
  apply AdvanceToEndOfLine_length.
Qed.

Lemma visited_lines_nonempty (content : StringBuffer) : visited_lines content <> [].
Proof. unfold visited_lines. destruct (BufferToLines content); discriminate. Qed.

(** ** Facts about the monadic steps and the loop *)

Lemma record_calls_record_calls evs1 evs2 w :
  record_calls evs2 (record_calls evs1 w) = record_calls (evs1 ++ evs2) w.
Proof. unfold record_calls. cbn. now rewrite <- app_assoc. Qed.

Lemma BufferToLines_line_start (c : byte) (rest : StringBuffer) :
  IsEndOfLine c = false -> visited_lines (c :: rest) = BufferToLines (c :: rest).
Proof.
  intros Hc. unfold visited_lines. now rewrite (BufferToLines_round c rest Hc).
Qed.

Lemma SkipEndOfLine_idempotent (ii : StringBuffer) :
  SkipEndOfLine (SkipEndOfLine ii) = SkipEndOfLine ii.
Proof.
  induction ii as [|c rest IH]; [reflexivity|].
  cbn [SkipEndOfLine]. destruct (IsEndOfLine c) eqn:E; [exact IH|].
  cbn [SkipEndOfLine]. now rewrite E.
Qed.

Lemma Call_done id (jsValues : JsValueList) i f args w :
  jsValues !! i = Some f ->
  Call id jsValues i args w = (Done tt, record_calls [call_event id i f args] w).
Proof. intros H. unfold Call. rewrite H. reflexivity. Qed.

Lemma ReadFromFile_lines_deliver fuel id (jsValues : JsValueList) f g
  (stringBegin : StringBuffer) w :
  jsValues !! 1 = Some g ->
  SkipEndOfLine stringBegin = stringBegin ->
  length stringBegin < fuel ->
  ReadFromFile_lines fuel id jsValues f stringBegin w =
    (Done tt,
     record_calls (deliver (script w) id f g (calls w) (visited_lines stringBegin)) w).
Proof.
  intros Hg. revert stringBegin w.
  induction fuel as [|fuel IH]; intros stringBegin w Hstart Hfuel; [lia|].
  cbn [ReadFromFile_lines]. unfold bind at 1. unfold Function_Call at 1.
  destruct stringBegin as [|c rest].
  - cbn [AdvanceToEndOfLine SkipEndOfLine length]. unfold StringBuffer_range.
    cbn [length take Nat.sub visited_lines BufferToLines deliver].
    destruct (script w (calls w) f _) as [|e].
    + rewrite (Call_done _ _ _ g) by exact Hg.
      now rewrite record_calls_record_calls.
    + rewrite (Call_done _ _ _ g) by exact Hg.
      now rewrite record_calls_record_calls.
  - assert (Hc : IsEndOfLine c = false).
    { apply (SkipEndOfLine_stops _ _ _ Hstart). }
    rewrite (BufferToLines_line_start c rest Hc).
    rewrite (BufferToLines_round c rest Hc).
    rewrite <- (BufferToLines_SkipEndOfLine (AdvanceToEndOfLine (c :: rest))).
    cbn [deliver].
    destruct (script w (calls w) f _) as [|e].
    + destruct (SkipEndOfLine (AdvanceToEndOfLine (c :: rest))) as [|c' rest'] eqn:Hnext.
      * rewrite (Call_done _ _ _ g) by exact Hg.
        cbn [BufferToLines deliver]. now rewrite record_calls_record_calls.
      * rewrite IH.
        -- rewrite record_calls_record_calls. cbn [script record_calls calls].
           rewrite (BufferToLines_line_start c' rest'); [reflexivity|].
           apply (SkipEndOfLine_stops _ _ _ Hnext).
        -- rewrite <- Hnext. apply SkipEndOfLine_idempotent.
        -- pose proof (SkipEndOfLine_length (AdvanceToEndOfLine (c :: rest))) as H1.
           pose proof (AdvanceToEndOfLine_progress c rest Hc) as H2.
           rewrite Hnext in H1. cbn [length] in *. lia.
    + rewrite (Call_done _ _ _ g) by exact Hg.
      now rewrite record_calls_record_calls.
Qed.

(** ** What each completion handler does with a live engine *)

Section LiveEngine.

Variables (w : World) (e : JsEngine) (id : nat) (jsValues : JsValueList).
Hypothesis alive : weakJsEngine w = Some e.
Hypothesis stored : jsWeakValuesLists e !! id = Some jsValues.

Lemma TakeJsValues_stored : TakeJsValues id w = (Done jsValues, with_engine (erase id e) w).
Proof. unfold TakeJsValues. now rewrite alive, stored. Qed.

Lemma take_and_call i f args :
  jsValues !! i = Some f ->
  (let* taken := TakeJsValues id in Call id taken i args) w =
    (Done tt, record_calls [call_event id i f args] (with_engine (erase id e) w)).
Proof.
  intros Hf. unfold bind. rewrite TakeJsValues_stored.
  now apply Call_done.
Qed.

Lemma ReadCallback_done_live content error f :
  jsValues !! 0 = Some f ->
  ReadCallback_done id content error w =
    (Done tt, record_calls [call_event id 0 f [read_result content error]]
                (with_engine (erase id e) w)).
Proof.
  intros Hf. unfold ReadCallback_done, bind at 1, lock. rewrite alive.
  rewrite (take_and_call 0 f _ Hf). unfold read_result.
  now destruct (String.eqb error "").
Qed.

Lemma StatCallback_done_live statResult error f :
  jsValues !! 0 = Some f ->
  StatCallback_done id statResult error w =
    (Done tt, record_calls [call_event id 0 f [stat_result statResult error]]
                (with_engine (erase id e) w)).
Proof.
  intros Hf. unfold StatCallback_done, bind at 1, lock. rewrite alive.
  rewrite (take_and_call 0 f _ Hf). unfold stat_result.
  now destruct (String.eqb error "").
Qed.

Lemma WriteCallback_done_live error f :
  jsValues !! 0 = Some f ->
  WriteCallback_done id error w =
    (Done tt, record_calls [call_event id 0 f (error_params error)]
                (with_engine (erase id e) w)).
Proof.
  intros Hf. unfold WriteCallback_done, bind at 1, lock. rewrite alive.
  rewrite (take_and_call 0 f _ Hf). unfold error_params.
  now destruct (String.eqb error "").
Qed.

Lemma MoveCallback_done_live error f :
  jsValues !! 0 = Some f ->
  MoveCallback_done id error w =
    (Done tt, record_calls [call_event id 0 f (error_params error)]
                (with_engine (erase id e) w)).
Proof.
  intros Hf. unfold MoveCallback_done, bind at 1, lock. rewrite alive.
  rewrite (take_and_call 0 f _ Hf). unfold error_params.
  now destruct (String.eqb error "").
Qed.

Lemma RemoveCallback_done_live error f :
  jsValues !! 0 = Some f ->
  RemoveCallback_done id error w =
    (Done tt, record_calls [call_event id 0 f (error_params error)]
                (with_engine (erase id e) w)).
Proof.
  intros Hf. unfold RemoveCallback_done, bind at 1, lock. rewrite alive.
  rewrite (take_and_call 0 f _ Hf). unfold error_params.
  now destruct (String.eqb error "").
Qed.

Lemma ReadFromFileCallback_done_failed content error g :
  error <> "" ->
  jsValues !! 1 = Some g ->
  ReadFromFileCallback_done id content error w =
    (Done tt, record_calls [call_event id 1 g [JsString error]]
                (with_engine (erase id e) w)).
Proof.
  intros Herr Hg. unfold ReadFromFileCallback_done, bind at 1, lock. rewrite alive.
  unfold bind. rewrite TakeJsValues_stored.
  apply String.eqb_neq in Herr. rewrite Herr. cbn [negb].
  now apply Call_done.
Qed.

Lemma ReadFromFileCallback_done_lines content f g :
  jsValues !! 0 = Some f ->
  jsValues !! 1 = Some g ->
  ReadFromFileCallback_done id content "" w =
    (Done tt, record_calls (deliver (script w) id f g (calls w) (visited_lines content))
                (with_engine (erase id e) w)).
Proof.
  intros Hf Hg. unfold ReadFromFileCallback_done, bind at 1, lock. rewrite alive.
  unfold bind. rewrite TakeJsValues_stored. cbn [String.eqb negb].
  rewrite Hf. cbn [IsObject negb].
  rewrite (ReadFromFile_lines_deliver _ _ _ f g); [| exact Hg | | ].
  - cbn [script calls with_engine]. unfold visited_lines.
    now rewrite BufferToLines_SkipEndOfLine.
  - apply SkipEndOfLine_idempotent.
  - pose proof (SkipEndOfLine_length content). lia.
Qed.

End LiveEngine.

(** ** What each dispatcher does *)

Ltac unfold_dispatcher H :=
  cbn [dispatch] in H;
  unfold ReadCallback, ReadFromFileCallback, WriteCallback, MoveCallback,
    RemoveCallback, StatCallback, bind, FromArguments, StoreJsValues,
    ThrowExceptionInJS, WithFileSystem, convert, ret, raise in H.

Ltac dispatcher_step H :=
  match type of H with
  | context [Nat.eqb ?a ?b] => destruct (Nat.eqb a b) eqn:?
  | context [IsFunction ?v] => destruct (IsFunction v) eqn:?
  | context [AsString ?v] => destruct (AsString v) eqn:?
  | context [AsStringBuffer ?v] => destruct (AsStringBuffer v) eqn:?
  end; cbn [negb andb with_engine weakJsEngine] in H; try discriminate H.

Lemma dispatch_accepted op converted w w1 :
  dispatch op converted w = (Done tt, w1) ->
  exists e request,
    weakJsEngine w = Some e /\
    well_formed op converted = true /\
    completion_of request = completion_for op (nextWeakValuesID e) /\
    w1 = submit request (with_engine (emplace (stored_values op converted) e) w).
Proof.
  intros H. unfold well_formed, stored_values.
  destruct (weakJsEngine w) as [e|] eqn:Halive.
  - destruct op; cbn [arity callback_positions map forallb]; unfold_dispatcher H;
      rewrite Halive in H; repeat dispatcher_step H; rewrite ?Halive in H; try discriminate H; injection H as <-;
      eexists _, _; (split; [reflexivity|]); (split; [reflexivity|]);
      (split; [|reflexivity]); reflexivity.
  - destruct op; unfold_dispatcher H; rewrite Halive in H; discriminate H.
Qed.

Lemma dispatch_malformed op converted w e :
  weakJsEngine w = Some e ->
  well_formed op converted = false ->
  exists message, dispatch op converted w = (Raised (ScriptException message), w).
Proof.
  intros Halive H. unfold well_formed in H.
  destruct op; cbn [dispatch arity callback_positions forallb] in *;
    unfold ReadCallback, ReadFromFileCallback, WriteCallback, MoveCallback,
      RemoveCallback, StatCallback, bind, FromArguments, ThrowExceptionInJS, raise;
    rewrite Halive;
    repeat dispatcher_step H; eexists; reflexivity.
Qed.

(** ** Counting invocations *)

Lemma invocations_app id i evs1 evs2 :
  invocations id i (evs1 ++ evs2) = invocations id i evs1 + invocations id i evs2.
Proof. unfold invocations. now rewrite List.filter_app, length_app. Qed.

Lemma invocations_call_event id i f args : invocations id i [call_event id i f args] = 1.
Proof. unfold invocations, invoked. cbn. now rewrite !Nat.eqb_refl. Qed.

Lemma invocations_other_index id i j evs :
  i <> j ->
  Forall (fun ev => index ev = j) evs ->
  invocations id i evs = 0.
Proof.
  intros Hij Hall. unfold invocations.
  induction Hall as [|ev evs Hev _ IH]; [reflexivity|].
  cbn [List.filter]. unfold invoked at 1. rewrite Hev.
  destruct (Nat.eqb_spec j i) as [->|_]; [contradiction|].
  rewrite andb_false_r. exact IH.
Qed.

(** The calls of a streaming read: per-line calls, then one completion call. *)
Lemma deliver_shape s id f g history lines :
  exists (lineCalls : list CallEvent) args,
    deliver s id f g history lines = lineCalls ++ [call_event id 1 g args] /\
    Forall (fun ev => group ev = id /\ index ev = 0 /\ callee ev = f) lineCalls /\
    length lineCalls <= length lines /\
    (args = [] \/ exists e, args = [JsString (ExceptionToString e)]).
Proof.
  revert history. induction lines as [|l rest IH]; intros history.
  - exists [], []. cbn. repeat split; [constructor | lia | now left].
  - cbn [deliver]. cbv zeta. destruct (s history f _) as [|e].
    + match goal with |- context [deliver s id f g ?h rest] =>
        destruct (IH h) as (lineCalls & args & -> & Hall & Hlen & Hargs) end.
      eexists (_ :: lineCalls), args.
      repeat split; [constructor; [now repeat split | exact Hall] | cbn; lia | exact Hargs].
    + eexists [_], [JsString (ExceptionToString e)].
      repeat split; [repeat constructor | cbn; lia | right; now exists e].
Qed.

(** ** The result objects *)

Lemma error_empty_dec (error : string) :
  (error = "" /\ String.eqb error "" = true) \/ (error <> "" /\ String.eqb error "" = false).
Proof. destruct (String.eqb_spec error ""); [left | right]; now split. Qed.

Lemma read_result_error content error :
  HasProperty "error" (read_result content error) = true <-> error <> "".
Proof.
  unfold read_result.
  destruct (error_empty_dec error) as [[-> ->]|[Hne ->]]; cbn; split; congruence.
Qed.

Lemma stat_result_error statResult error :
  HasProperty "error" (stat_result statResult error) = true <-> error <> "".
Proof.
  unfold stat_result.
  destruct (error_empty_dec error) as [[-> ->]|[Hne ->]]; cbn; split; congruence.
Qed.

Lemma read_result_content content error :
  GetProperty "content" (read_result content error) = Some (StringBufferToV8String content).
Proof. reflexivity. Qed.

Lemma stat_result_fields statResult error :
  GetProperty "exists" (stat_result statResult error) = Some (JsBoolean (exists_ statResult))
  /\ GetProperty "lastModified" (stat_result statResult error)
     = Some (JsNumber (lastModified statResult)).
Proof. split; reflexivity. Qed.

(** ** Exactly one report per operation *)

Lemma token_completion_for op id : token (completion_for op id) = id.
Proof. now destruct op. Qed.

Lemma error_params_cases error :
  (error = "" /\ error_params error = []) \/ (error <> "" /\ error_params error = [JsString error]).
Proof.
  unfold error_params.
  destruct (error_empty_dec error) as [[-> ->]|[Hne ->]]; [left | right]; now split.
Qed.

(** A single call on position 0 reports once. *)
Lemma single_call_reports_once op id (converted : JsValueList) result args :
  op <> readFromFile ->
  success_path (completion_for op id)
    (call_event id 0 (converted !!! (arity op - 1)) args)
  = negb (error_path (completion_for op id)
            (call_event id 0 (converted !!! (arity op - 1)) args)) ->
  (native_error result <> "" ->
   error_path (completion_for op id)
     (call_event id 0 (converted !!! (arity op - 1)) args) = true) ->
  (native_error result = "" ->
   success_path (completion_for op id)
     (call_event id 0 (converted !!! (arity op - 1)) args) = true) ->
  reports_once op id converted result
    [call_event id 0 (converted !!! (arity op - 1)) args].
Proof.
  intros Hop Hxor Herr Hok. unfold reports_once. cbv zeta.
  exists [], (call_event id 0 (converted !!! (arity op - 1)) args).
  assert (Hfinal : final_index (completion_for op id) = 0) by now destruct op.
  rewrite Hfinal.
  split; [reflexivity|]. split; [reflexivity|]. split; [reflexivity|].
  split; [reflexivity|]. split; [constructor|].
  split; [apply invocations_call_event|]. split; [exact Hxor|].
  split; [intros H; split; [now apply Herr | reflexivity]|].
  intros H _. now apply Hok.
Qed.

Lemma streaming_reports_once id (converted : JsValueList) content error s history :
  reports_once readFromFile id converted (ReadResult content error)
    (if String.eqb error "" then
       deliver s id (converted !!! 1) (converted !!! 2) history (visited_lines content)
     else [call_event id 1 (converted !!! 2) [JsString error]]).
Proof.
  unfold reports_once. cbv zeta. cbn [completion_for final_index arity native_error Nat.sub].
  destruct (error_empty_dec error) as [[-> ->]|[Hne ->]].
  - destruct (deliver_shape s id (converted !!! 1) (converted !!! 2) history
                (visited_lines content)) as (lineCalls & args & -> & Hall & _ & Hargs).
    exists lineCalls, (call_event id 1 (converted !!! 2) args).
    split; [reflexivity|]. split; [reflexivity|]. split; [reflexivity|].
    split; [reflexivity|]. split.
    { eapply Forall_impl; [exact Hall|]. intros ev (? & ? & ?). now repeat split. }
    split.
    { rewrite invocations_app, invocations_call_event.
      rewrite (invocations_other_index id 1 0); [reflexivity | lia |].
      eapply Forall_impl; [exact Hall|]. now intros ev (? & ? & ?). }
    split.
    { destruct Hargs as [->|(ex & ->)]; reflexivity. }
    split; [congruence|]. intros _ Hop. now contradiction Hop.
  - exists [], (call_event id 1 (converted !!! 2) [JsString error]).
    split; [reflexivity|]. split; [reflexivity|]. split; [reflexivity|].
    split; [reflexivity|]. split; [constructor|].
    split; [apply invocations_call_event|]. split; [reflexivity|].
    split; [now split|]. intros _ Hop. now contradiction Hop.
Qed.

(** Every handler, run with a live engine that still holds the group the
    dispatcher stored, reports once. *)
Lemma complete_reports_once op id (converted : JsValueList) result w e :
  weakJsEngine w = Some e ->
  jsWeakValuesLists e !! id = Some (stored_values op converted) ->
  fits (completion_for op id) result = true ->
  exists w' new,
    complete (completion_for op id) result w = (Done tt, w')
    /\ calls w' = calls w ++ new
    /\ reports_once op id converted result new.
Proof.
  intros Halive Hstored Hfits.
  destruct op; destruct result as [content error|error|statResult error];
    try discriminate Hfits; cbn [complete completion_for].
  - eexists; eexists. split; [exact (ReadCallback_done_live w e id _ Halive Hstored content error _ eq_refl)|].
    split; [reflexivity|].
    apply (single_call_reports_once read); [discriminate | reflexivity | |].
    + intros H. now apply read_result_error.
    + cbn [native_error]. intros ->. reflexivity.
  - destruct (error_empty_dec error) as [[-> Heq]|[Hne Heq]]; eexists; eexists.
    + split; [exact (ReadFromFileCallback_done_lines w e id _ Halive Hstored content _ _
                       eq_refl eq_refl)|].
      split; [reflexivity|].
      exact (streaming_reports_once id converted content "" (script w) (calls w)).
    + split; [exact (ReadFromFileCallback_done_failed w e id _ Halive Hstored content error _
                       Hne eq_refl)|].
      split; [reflexivity|].
      pose proof (streaming_reports_once id converted content error (script w) (calls w)) as H.
      now rewrite Heq in H.
  - eexists; eexists. split; [exact (WriteCallback_done_live w e id _ Halive Hstored error _ eq_refl)|].
    split; [reflexivity|].
    destruct (error_params_cases error) as [[-> ->]|[Hne ->]];
      apply (single_call_reports_once write); try discriminate; try reflexivity;
      cbn [native_error]; congruence.
  - eexists; eexists. split; [exact (MoveCallback_done_live w e id _ Halive Hstored error _ eq_refl)|].
    split; [reflexivity|].
    destruct (error_params_cases error) as [[-> ->]|[Hne ->]];
      apply (single_call_reports_once move); try discriminate; try reflexivity;
      cbn [native_error]; congruence.
  - eexists; eexists. split; [exact (RemoveCallback_done_live w e id _ Halive Hstored error _ eq_refl)|].
    split; [reflexivity|].
    destruct (error_params_cases error) as [[-> ->]|[Hne ->]];
      apply (single_call_reports_once remove); try discriminate; try reflexivity;
      cbn [native_error]; congruence.
  - eexists; eexists. split; [exact (StatCallback_done_live w e id _ Halive Hstored statResult error _ eq_refl)|].
    split; [reflexivity|].
    apply (single_call_reports_once stat); [discriminate | reflexivity | |].
    + intros H. now apply stat_result_error.
    + cbn [native_error]. intros ->. reflexivity.
Qed.

(** * The claims *)

(** C1, as stated, fails for the streaming read: its per-line callback
    handle is invoked once per line, here three times in one operation. *)
Lemma C1_counterexample :
  dispatch readFromFile [JsString "patterns.ini"; JsFunction 1; JsFunction 2]
    (fresh_world quiet) = (Done tt, streaming_world quiet)
  /\ fst (complete (ReadFromFileDone 0) (ReadResult abc "") (streaming_world quiet)) = Done tt
  /\ ~ (forall i,
          invocations 0 i
            (calls (snd (complete (ReadFromFileDone 0) (ReadResult abc "")
                           (streaming_world quiet)))) <= 1).
Proof.
  split; [reflexivity|]. split; [reflexivity|].
  intros H. specialize (H 0). vm_compute in H. lia.
Qed.

(** C1, amended: for every operation whose dispatcher accepted the argument
    list, the completion handler, run while the engine is alive and still
    holds the stored group, calls the callback that reports the end of the
    operation (the last argument) exactly once, either on the success path or
    on the error path and never on both.  Only the streaming read makes other
    calls: its per-line callback is called once per line delivered, before
    the completion callback. *)
Theorem C1_end_of_operation_reported_exactly_once op (converted : JsValueList) w w1 :
  dispatch op converted w = (Done tt, w1) ->
  exists id request e1,
    fileSystem w1 = fileSystem w ++ [request]
    /\ completion_of request = completion_for op id
    /\ weakJsEngine w1 = Some e1
    /\ jsWeakValuesLists e1 !! id = Some (stored_values op converted)
    /\ forall result w2 e2,
         fits (completion_for op id) result = true ->
         weakJsEngine w2 = Some e2 ->
         jsWeakValuesLists e2 !! id = Some (stored_values op converted) ->
         exists w3 new,
           complete (completion_for op id) result w2 = (Done tt, w3)
           /\ calls w3 = calls w2 ++ new
           /\ reports_once op id converted result new.
Proof.
  intros Haccepted.
  destruct (dispatch_accepted op converted w w1 Haccepted)
    as (e & request & Halive & _ & Hk & ->).
  exists (nextWeakValuesID e), request, (emplace (stored_values op converted) e).
  split; [reflexivity|]. split; [exact Hk|]. split; [reflexivity|].
  split; [apply lookup_insert_eq|].
  intros result w2 e2 Hfits Halive2 Hstored2.
  now apply (complete_reports_once op _ converted result w2 e2).
Qed.

Lemma C1_witness :
  exists id request e1,
    fileSystem (streaming_world quiet) = fileSystem (fresh_world quiet) ++ [request]
    /\ completion_of request = completion_for readFromFile id
    /\ weakJsEngine (streaming_world quiet) = Some e1
    /\ jsWeakValuesLists e1 !! id
       = Some (stored_values readFromFile
                 [JsString "patterns.ini"; JsFunction 1; JsFunction 2])
    /\ forall result w2 e2,
         fits (completion_for readFromFile id) result = true ->
         weakJsEngine w2 = Some e2 ->
         jsWeakValuesLists e2 !! id
         = Some (stored_values readFromFile
                   [JsString "patterns.ini"; JsFunction 1; JsFunction 2]) ->
         exists w3 new,
           complete (completion_for readFromFile id) result w2 = (Done tt, w3)
           /\ calls w3 = calls w2 ++ new
           /\ reports_once readFromFile id
                [JsString "patterns.ini"; JsFunction 1; JsFunction 2] result new.
Proof.
  apply (C1_end_of_operation_reported_exactly_once readFromFile
           [JsString "patterns.ini"; JsFunction 1; JsFunction 2]
           (fresh_world quiet) (streaming_world quiet)).
  reflexivity.
Defined.

(** C2, as stated, fails: over an empty buffer, and over a buffer of
    terminators only, the per-line callback is called once, not zero times. *)
Lemma C2_counterexample :
  invocations 0 0 (calls (snd (ReadFromFileCallback_done 0 [] "" (streaming_world quiet)))) <> 0
  /\ invocations 0 0
       (calls (snd (ReadFromFileCallback_done 0 [x0d; x0a] "" (streaming_world quiet)))) <> 0.
Proof. split; vm_compute; discriminate. Qed.

(** C2, amended: when the fetched buffer is empty or holds terminators only,
    the loop body still runs once: the per-line callback is called exactly
    once, with the empty text, and then the completion callback is called
    once, with no argument if that per-line call returned and with the
    exception description if it threw. *)
Theorem C2_empty_buffer_delivers_one_empty_line id content w e (jsValues : JsValueList) f g :
  weakJsEngine w = Some e ->
  jsWeakValuesLists e !! id = Some jsValues ->
  jsValues !! 0 = Some f ->
  jsValues !! 1 = Some g ->
  forallb IsEndOfLine content = true ->
  exists w',
    ReadFromFileCallback_done id content "" w = (Done tt, w')
    /\ calls w' =
         calls w ++
         [call_event id 0 f [JsString ""];
          call_event id 1 g
            match script w (calls w) f [JsString ""] with
            | Returned => []
            | Thrown exception => [JsString (ExceptionToString exception)]
            end].
Proof.
  intros Halive Hstored Hf Hg Hterminators. eexists. split.
  - exact (ReadFromFileCallback_done_lines w e id jsValues Halive Hstored content f g Hf Hg).
  - cbn [calls record_calls with_engine]. f_equal.
    unfold visited_lines. rewrite (BufferToLines_terminators content Hterminators).
    cbn [deliver]. change (StringBufferToV8String []) with (JsString "").
    now destruct (script w (calls w) f [JsString ""]).
Qed.

Lemma C2_witness :
  exists w',
    ReadFromFileCallback_done 0 [x0d; x0a] "" (streaming_world quiet) = (Done tt, w')
    /\ calls w' =
         [call_event 0 0 (JsFunction 1) [JsString ""]; call_event 0 1 (JsFunction 2) []].
Proof.
  apply (C2_empty_buffer_delivers_one_empty_line 0 [x0d; x0a] (streaming_world quiet)
           (emplace [JsFunction 1; JsFunction 2] engine0)
           [JsFunction 1; JsFunction 2] (JsFunction 1) (JsFunction 2));
    reflexivity.
Defined.

(** C3, as stated, fails on the size of its input: the text a, LF, b, LF,
    LF, c has six bytes, not seven; and the seven bytes of the same text as a
    C literal, with its final NUL, do not give the line "c". *)
Lemma C3_counterexample :
  length abc <> 7
  /\ length abc_literal = 7
  /\ map arguments
       (calls (snd (ReadFromFileCallback_done 0 abc_literal "" (streaming_world quiet))))
     <> [[JsString "a"]; [JsString "b"]; [JsString "c"]; []].
Proof. split; [|split]; vm_compute; [discriminate | reflexivity | discriminate]. Qed.

(** C3, amended: over the six-byte buffer a, LF, b, LF, LF, c, with a
    per-line callback that returns normally, the per-line callback is called
    three times, with "a", "b" and "c" in this order, and then the completion
    callback is called once with no argument. *)
Theorem C3_three_lines_then_completion id w e (jsValues : JsValueList) f g :
  weakJsEngine w = Some e ->
  jsWeakValuesLists e !! id = Some jsValues ->
  jsValues !! 0 = Some f ->
  jsValues !! 1 = Some g ->
  (forall history args, script w history f args = Returned) ->
  length abc = 6
  /\ exists w',
      ReadFromFileCallback_done id abc "" w = (Done tt, w')
      /\ calls w' =
           calls w ++
           [call_event id 0 f [JsString "a"]; call_event id 0 f [JsString "b"];
            call_event id 0 f [JsString "c"]; call_event id 1 g []].
Proof.
  intros Halive Hstored Hf Hg Hquiet. split; [reflexivity|]. eexists. split.
  - exact (ReadFromFileCallback_done_lines w e id jsValues Halive Hstored abc f g Hf Hg).
  - cbn [calls record_calls with_engine]. f_equal.
    change (visited_lines abc) with [[x61]; [x62]; [x63]].
    cbn [deliver]. rewrite !Hquiet. reflexivity.
Qed.

Lemma C3_witness :
  length abc = 6
  /\ exists w',
      ReadFromFileCallback_done 0 abc "" (streaming_world quiet) = (Done tt, w')
      /\ calls w' =
           calls (streaming_world quiet) ++
           [call_event 0 0 (JsFunction 1) [JsString "a"];
            call_event 0 0 (JsFunction 1) [JsString "b"];
            call_event 0 0 (JsFunction 1) [JsString "c"];
            call_event 0 1 (JsFunction 2) []].
Proof.
  apply (C3_three_lines_then_completion 0 (streaming_world quiet)
           (emplace [JsFunction 1; JsFunction 2] engine0)
           [JsFunction 1; JsFunction 2] (JsFunction 1) (JsFunction 2));
    reflexivity.
Defined.




(** C5: when the weak engine reference no longer resolves, every completion
    handler returns at once: it invokes no callback, leaves the registry,
    the filesystem service and the call log as they were, and raises
    nothing. *)
Theorem C5_torn_down_engine_is_ignored (w : World) :
  weakJsEngine w = None ->
  (forall id content error, ReadCallback_done id content error w = (Done tt, w))
  /\ (forall id content error, ReadFromFileCallback_done id content error w = (Done tt, w))
  /\ (forall id error, WriteCallback_done id error w = (Done tt, w))
  /\ (forall id error, MoveCallback_done id error w = (Done tt, w))
  /\ (forall id error, RemoveCallback_done id error w = (Done tt, w))
  /\ (forall id statResult error, StatCallback_done id statResult error w = (Done tt, w)).
Proof.
  intros Hdead.
  repeat split; intros;
    unfold ReadCallback_done, ReadFromFileCallback_done, WriteCallback_done,
      MoveCallback_done, RemoveCallback_done, StatCallback_done, bind, lock, ret;
    now rewrite Hdead.
Qed.

Lemma C5_witness :
  weakJsEngine torn_down_world = None
  /\ ReadFromFileCallback_done 0 abc "" torn_down_world = (Done tt, torn_down_world).
Proof.
  split; [reflexivity|].
  apply (C5_torn_down_engine_is_ignored torn_down_world). reflexivity.
Defined.

(** C6: an argument list of the wrong length, or with a value that is not a
    function at a callback position, makes the dispatcher throw a script
    exception and changes nothing: no Callback Group is stored and no request
    reaches the filesystem service. *)
Theorem C6_malformed_arguments_throw op (converted : JsValueList) w e :
  weakJsEngine w = Some e ->
  (length converted <> arity op
   \/ exists i, In i (callback_positions op) /\ IsFunction (converted !!! i) = false) ->
  exists message, dispatch op converted w = (Raised (ScriptException message), w).
Proof.
  intros Halive Hbad. apply (dispatch_malformed op converted w e Halive).
  unfold well_formed. destruct Hbad as [Hlen|(i & Hin & Hfun)].
  - apply Nat.eqb_neq in Hlen. now rewrite Hlen.
  - apply andb_false_iff. right.
    destruct (forallb _ (callback_positions op)) eqn:Hall; [|reflexivity].
    rewrite forallb_forall in Hall. specialize (Hall i Hin). congruence.
Qed.

Lemma C6_witness :
  exists message,
    dispatch stat [JsString "patterns.ini"; JsNumber 1] (fresh_world quiet)
    = (Raised (ScriptException message), fresh_world quiet).
Proof.
  apply (C6_malformed_arguments_throw stat _ (fresh_world quiet) engine0).
  - reflexivity.
  - right. exists 1. split; [cbn; now left | reflexivity].
Defined.

(** C7: when the native read of a streaming read reports a non-empty error,
    the only call made is one call of the completion callback (position 1 of
    the group) with that error string as its single argument; the per-line
    callback (position 0) is not called. *)
Theorem C7_native_error_goes_to_completion_callback id content error w e
  (jsValues : JsValueList) g :
  weakJsEngine w = Some e ->
  jsWeakValuesLists e !! id = Some jsValues ->
  jsValues !! 1 = Some g ->
  error <> "" ->
  exists w',
    ReadFromFileCallback_done id content error w = (Done tt, w')
    /\ calls w' = calls w ++ [call_event id 1 g [JsString error]]
    /\ invocations id 0 [call_event id 1 g [JsString error]] = 0
    /\ invocations id 1 [call_event id 1 g [JsString error]] = 1.
Proof.
  intros Halive Hstored Hg Herr. eexists. split.
  - exact (ReadFromFileCallback_done_failed w e id jsValues Halive Hstored content error g Herr Hg).
  - split; [reflexivity|]. split.
    + apply (invocations_other_index id 0 1); [lia|]. now repeat constructor.
    + apply invocations_call_event.
Qed.

Lemma C7_witness :
  exists w',
    ReadFromFileCallback_done 0 abc "disk failure" (streaming_world quiet) = (Done tt, w')
    /\ calls w' = [call_event 0 1 (JsFunction 2) [JsString "disk failure"]].
Proof.
  destruct (C7_native_error_goes_to_completion_callback 0 abc "disk failure"
              (streaming_world quiet) (emplace [JsFunction 1; JsFunction 2] engine0)
              [JsFunction 1; JsFunction 2] (JsFunction 2))
    as (w' & Hrun & Hcalls & _); [reflexivity | reflexivity | reflexivity | discriminate |].
  exists w'. split; [exact Hrun | exact Hcalls].
Defined.

(** C8: the handlers of write, move and remove call the stored callback with
    no argument when the native error string is empty, and with the error
    string as the only argument when it is not. *)
Theorem C8_error_only_callbacks id error w e (jsValues : JsValueList) f :
  weakJsEngine w = Some e ->
  jsWeakValuesLists e !! id = Some jsValues ->
  jsValues !! 0 = Some f ->
  exists params w',
    (error = "" -> params = [])
    /\ (error <> "" -> params = [JsString error])
    /\ calls w' = calls w ++ [call_event id 0 f params]
    /\ WriteCallback_done id error w = (Done tt, w')
    /\ MoveCallback_done id error w = (Done tt, w')
    /\ RemoveCallback_done id error w = (Done tt, w').
Proof.
  intros Halive Hstored Hf.
  exists (error_params error),
    (record_calls [call_event id 0 f (error_params error)] (with_engine (erase id e) w)).
  unfold error_params at 1 2.
  destruct (error_empty_dec error) as [[-> ->]|[Hne ->]].
  - split; [reflexivity|]. split; [congruence|]. split; [reflexivity|].
    split; [|split].
    + exact (WriteCallback_done_live w e id jsValues Halive Hstored "" f Hf).
    + exact (MoveCallback_done_live w e id jsValues Halive Hstored "" f Hf).
    + exact (RemoveCallback_done_live w e id jsValues Halive Hstored "" f Hf).
  - split; [congruence|]. split; [reflexivity|]. split; [reflexivity|].
    split; [|split].
    + exact (WriteCallback_done_live w e id jsValues Halive Hstored error f Hf).
    + exact (MoveCallback_done_live w e id jsValues Halive Hstored error f Hf).
    + exact (RemoveCallback_done_live w e id jsValues Halive Hstored error f Hf).
Qed.

Lemma C8_witness :
  exists params w',
    ("" = "" -> params = [])
    /\ ("" <> "" -> params = [JsString ""])
    /\ calls w' = calls writing_world ++ [call_event 0 0 (JsFunction 1) params]
    /\ WriteCallback_done 0 "" writing_world = (Done tt, w')
    /\ MoveCallback_done 0 "" writing_world = (Done tt, w')
    /\ RemoveCallback_done 0 "" writing_world = (Done tt, w').
Proof.
  apply (C8_error_only_callbacks 0 "" writing_world (emplace [JsFunction 1] engine0)
           [JsFunction 1] (JsFunction 1)); reflexivity.
Defined.

(** C9: the result object that read and stat hand to the callback has an
    [error] property exactly when the native error string is not empty; a
    stat that reports a missing file without an error yields [exists] false
    and no [error] property. *)
Theorem C9_error_property_iff_native_error id w e (jsValues : JsValueList) f :
  weakJsEngine w = Some e ->
  jsWeakValuesLists e !! id = Some jsValues ->
  jsValues !! 0 = Some f ->
  (forall content error, exists result w',
      ReadCallback_done id content error w = (Done tt, w')
      /\ calls w' = calls w ++ [call_event id 0 f [result]]
      /\ (HasProperty "error" result = true <-> error <> ""))
  /\ (forall statResult error, exists result w',
      StatCallback_done id statResult error w = (Done tt, w')
      /\ calls w' = calls w ++ [call_event id 0 f [result]]
      /\ (HasProperty "error" result = true <-> error <> ""))
  /\ (forall modified, exists result w',
      StatCallback_done id {| exists_ := false; lastModified := modified |} "" w
      = (Done tt, w')
      /\ calls w' = calls w ++ [call_event id 0 f [result]]
      /\ GetProperty "exists" result = Some (JsBoolean false)
      /\ HasProperty "error" result = false).
Proof.
  intros Halive Hstored Hf. split; [|split].
  - intros content error. exists (read_result content error). eexists.
    split; [exact (ReadCallback_done_live w e id jsValues Halive Hstored content error f Hf)|].
    split; [reflexivity | apply read_result_error].
  - intros statResult error. exists (stat_result statResult error). eexists.
    split; [exact (StatCallback_done_live w e id jsValues Halive Hstored statResult error f Hf)|].
    split; [reflexivity | apply stat_result_error].
  - intros modified.
    exists (stat_result {| exists_ := false; lastModified := modified |} ""). eexists.
    split; [exact (StatCallback_done_live w e id jsValues Halive Hstored _ "" f Hf)|].
    repeat split; reflexivity.
Qed.

Lemma C9_witness :
  exists result w',
    StatCallback_done 0 {| exists_ := false; lastModified := 0 |} "" stat_world
    = (Done tt, w')
    /\ calls w' = calls stat_world ++ [call_event 0 0 (JsFunction 1) [result]]
    /\ GetProperty "exists" result = Some (JsBoolean false)
    /\ HasProperty "error" result = false.
Proof.
  apply (C9_error_property_iff_native_error 0 stat_world
           (emplace [JsFunction 1] engine0) [JsFunction 1] (JsFunction 1));
    reflexivity.
Defined.

(** C10: the result object of read always carries [content], the buffer as
    delivered, and the result object of stat always carries [exists] and
    [lastModified] copied from the native stat result, whether or not the
    native operation reported an error. *)
Theorem C10_payload_properties_always_present id w e (jsValues : JsValueList) f :
  weakJsEngine w = Some e ->
  jsWeakValuesLists e !! id = Some jsValues ->
  jsValues !! 0 = Some f ->
  (forall content error, exists result w',
      ReadCallback_done id content error w = (Done tt, w')
      /\ calls w' = calls w ++ [call_event id 0 f [result]]
      /\ GetProperty "content" result = Some (StringBufferToV8String content))
  /\ (forall statResult error, exists result w',
      StatCallback_done id statResult error w = (Done tt, w')
      /\ calls w' = calls w ++ [call_event id 0 f [result]]
      /\ GetProperty "exists" result = Some (JsBoolean (exists_ statResult))
      /\ GetProperty "lastModified" result = Some (JsNumber (lastModified statResult))).
Proof.
  intros Halive Hstored Hf. split.
  - intros content error. exists (read_result content error). eexists.
    split; [exact (ReadCallback_done_live w e id jsValues Halive Hstored content error f Hf)|].
    split; reflexivity.
  - intros statResult error. exists (stat_result statResult error). eexists.
    split; [exact (StatCallback_done_live w e id jsValues Halive Hstored statResult error f Hf)|].
    repeat split; reflexivity.
Qed.

Lemma C10_witness :
  exists result w',
    ReadCallback_done 0 abc "disk failure" reading_world = (Done tt, w')
    /\ calls w' = calls reading_world ++ [call_event 0 0 (JsFunction 1) [result]]
    /\ GetProperty "content" result = Some (StringBufferToV8String abc).
Proof.
  apply (C10_payload_properties_always_present 0 reading_world
           (emplace [JsFunction 1] engine0) [JsFunction 1] (JsFunction 1));
    reflexivity.
Defined.

(** * Further properties of the code *)

(** ** More on the line scanners *)

(** X1: [SkipEndOfLine] cuts off the longest run of terminators at the
    start: what it skips holds terminators only, and it stops at the end of
    the buffer or at a byte that is not a terminator. *)
Theorem X1_SkipEndOfLine_drops_leading_terminators (ii : StringBuffer) :
  exists skipped : StringBuffer,
    ii = skipped ++ SkipEndOfLine ii
    /\ forallb IsEndOfLine skipped = true
    /\ (SkipEndOfLine ii = []
        \/ exists c rest, SkipEndOfLine ii = c :: rest /\ IsEndOfLine c = false).
Proof.
  induction ii as [|c rest (skipped & Hsplit & Hall & Hstop)].
  - exists []. repeat split. now left.
  - cbn [SkipEndOfLine]. destruct (IsEndOfLine c) eqn:Hc.
    + exists (c :: skipped). cbn [forallb app]. rewrite Hc, Hall, <- Hsplit.
      repeat split. exact Hstop.
    + exists []. repeat split. right. now exists c, rest.
Qed.

(** X2: [AdvanceToEndOfLine] cuts off the longest run of bytes that are not
    terminators: the range up to the position it returns holds no terminator,
    and it stops at the end of the buffer or at a terminator. *)
Theorem X2_AdvanceToEndOfLine_stops_at_first_terminator (ii : StringBuffer) :
  ii = StringBuffer_range ii (AdvanceToEndOfLine ii) ++ AdvanceToEndOfLine ii
  /\ is_line (StringBuffer_range ii (AdvanceToEndOfLine ii)) = true
  /\ (AdvanceToEndOfLine ii = []
      \/ exists c rest, AdvanceToEndOfLine ii = c :: rest /\ IsEndOfLine c = true).
Proof.
  unfold StringBuffer_range, is_line.
  induction ii as [|c rest (Hsplit & Hline & Hstop)].
  - repeat split. now left.
  - destruct (IsEndOfLine c) eqn:Hc.
    + rewrite (AdvanceToEndOfLine_cons_terminator c rest Hc).
      rewrite Nat.sub_diag. repeat split. right. now exists c, rest.
    + rewrite (AdvanceToEndOfLine_cons_line c rest Hc).
      pose proof (AdvanceToEndOfLine_length rest) as Hlen.
      cbn [length].
      replace (S (length rest) - length (AdvanceToEndOfLine rest))
        with (S (length rest - length (AdvanceToEndOfLine rest))) by lia.
      cbn [take forallb app]. rewrite Hc, Hline, <- Hsplit. repeat split. exact Hstop.
Qed.

(** Lines of the specification are not empty and hold no terminator. *)
Lemma BufferToLines_lines (b : StringBuffer) :
  Forall (fun l => l <> [] /\ is_line l = true) (BufferToLines b).
Proof.
  unfold is_line.
  induction b as [|c rest IH]; [constructor|].
  cbn [BufferToLines]. destruct (IsEndOfLine c) eqn:Hc; [exact IH|].
  destruct rest as [|d more]; [repeat constructor; [discriminate | cbn; now rewrite Hc]|].
  destruct (IsEndOfLine d) eqn:Hd.
  - constructor; [split; [discriminate | cbn; now rewrite Hc] | exact IH].
  - destruct (BufferToLines (d :: more)) as [|l ls].
    + repeat constructor; [discriminate | cbn; now rewrite Hc].
    + inversion IH as [|? ? [Hne Hl] Hls]; subst.
      constructor; [split; [discriminate | cbn [forallb]; now rewrite Hc, Hl] | exact Hls].
Qed.

(** Joining the lines gives the content without its terminators. *)
Lemma BufferToLines_concat (b : StringBuffer) :
  concat (BufferToLines b) = List.filter (fun c => negb (IsEndOfLine c)) b.
Proof.
  induction b as [|c rest IH]; [reflexivity|].
  cbn [BufferToLines List.filter]. destruct (IsEndOfLine c) eqn:Hc; cbn [negb]; [exact IH|].
  destruct rest as [|d more]; [reflexivity|].
  destruct (IsEndOfLine d) eqn:Hd.
  - cbn [concat app]. now rewrite IH.
  - rewrite <- IH.
    pose proof (BufferToLines_round d more Hd) as Hround.
    destruct (BufferToLines (d :: more)) as [|l ls]; [discriminate|]. reflexivity.
Qed.

(** A second terminator after a terminator changes no line. *)
Lemma BufferToLines_double_terminator (a b : StringBuffer) t1 t2 :
  IsEndOfLine t1 = true -> IsEndOfLine t2 = true ->
  BufferToLines (a ++ t1 :: t2 :: b) = BufferToLines (a ++ t1 :: b).
Proof.
  intros H1 H2. induction a as [|c a IH].
  - cbn [app BufferToLines]. now rewrite H1, H2.
  - cbn [app]. cbn [BufferToLines]. destruct (IsEndOfLine c) eqn:Hc; [exact IH|].
    destruct a as [|d a'].
    + cbn [app] in *. rewrite H1. now rewrite IH.
    + cbn [app] in *. destruct (IsEndOfLine d); now rewrite IH.
Qed.

Lemma BufferToLines_terminator_run (a b t : StringBuffer) t0 :
  IsEndOfLine t0 = true -> forallb IsEndOfLine t = true ->
  BufferToLines (a ++ t0 :: t ++ b) = BufferToLines (a ++ t0 :: b).
Proof.
  intros H0 Ht. induction t as [|t1 t IH]; [reflexivity|].
  cbn [forallb] in Ht. apply andb_true_iff in Ht as [H1 Ht].
  cbn [app]. rewrite (BufferToLines_double_terminator a (t ++ b) t0 t1 H0 H1).
  now apply IH.
Qed.

Lemma BufferToLines_trailing_terminators (a t : StringBuffer) :
  forallb IsEndOfLine t = true -> BufferToLines (a ++ t) = BufferToLines a.
Proof.
  intros Ht. induction a as [|c a IH].
  - now apply BufferToLines_terminators.
  - cbn [app]. cbn [BufferToLines]. destruct (IsEndOfLine c) eqn:Hc; [exact IH|].
    destruct a as [|d a'].
    + cbn [app] in *. rewrite IH. destruct t as [|t0 t']; [reflexivity|].
      cbn [forallb] in Ht. apply andb_true_iff in Ht as [-> _]. reflexivity.
    + cbn [app] in *. now rewrite IH.
Qed.

Lemma BufferToLines_leading_terminators (t a : StringBuffer) :
  forallb IsEndOfLine t = true -> BufferToLines (t ++ a) = BufferToLines a.
Proof.
  intros Ht. induction t as [|t0 t IH]; [reflexivity|].
  cbn [forallb] in Ht. apply andb_true_iff in Ht as [H0 Ht].
  cbn [app BufferToLines]. rewrite H0. now apply IH.
Qed.

Lemma BufferToLines_nil (b : StringBuffer) :
  BufferToLines b = [] -> forallb IsEndOfLine b = true.
Proof.
  induction b as [|c rest IH]; [reflexivity|]. intros Hnil.
  destruct (IsEndOfLine c) eqn:Hc.
  - cbn [BufferToLines] in Hnil. rewrite Hc in Hnil.
    cbn [forallb]. rewrite Hc. now apply IH.
  - rewrite (BufferToLines_round c rest Hc) in Hnil. discriminate.
Qed.

(** ** More on the calls of the streaming read *)

Lemma line_calls_app id f (l1 l2 : list StringBuffer) :
  line_calls id f (l1 ++ l2) = line_calls id f l1 ++ line_calls id f l2.
Proof. unfold line_calls. apply map_app. Qed.

(** The lines delivered are an initial part of the lines to deliver; the
    completion call has no argument only when all were delivered. *)
Lemma deliver_prefix s id f g history (lines : list StringBuffer) :
  exists (delivered rest : list StringBuffer) args,
    lines = delivered ++ rest
    /\ deliver s id f g history lines
       = line_calls id f delivered ++ [call_event id 1 g args]
    /\ (lines <> [] -> delivered <> [])
    /\ ((args = [] /\ rest = []) \/ exists ex, args = [JsString (ExceptionToString ex)]).
Proof.
  revert history. induction lines as [|l lines IH]; intros history.
  - exists [], [], []. repeat split; [congruence | now left].
  - cbn [deliver]. cbv zeta. destruct (s history f _) as [|ex].
    + match goal with |- context [deliver s id f g ?h lines] =>
        destruct (IH h) as (delivered & rest & args & -> & -> & _ & Hargs) end.
      exists (l :: delivered), rest, args. repeat split; [discriminate | exact Hargs].
    + exists [l], lines, [JsString (ExceptionToString ex)].
      repeat split; [discriminate | right; now exists ex].
Qed.

(** While the per-line callback returns, delivery goes on. *)
Lemma deliver_returning s id f g history (pre lines : list StringBuffer) :
  (forall p1 x p2, pre = p1 ++ x :: p2 ->
     s (history ++ line_calls id f p1) f [StringBufferToV8String x] = Returned) ->
  deliver s id f g history (pre ++ lines)
  = line_calls id f pre ++ deliver s id f g (history ++ line_calls id f pre) lines.
Proof.
  revert history. induction pre as [|l pre IH]; intros history Hret.
  - cbn. now rewrite app_nil_r.
  - cbn [app deliver]. cbv zeta.
    pose proof (Hret [] l pre eq_refl) as Hfirst. cbn in Hfirst.
    rewrite app_nil_r in Hfirst. rewrite Hfirst.
    rewrite IH.
    + cbn [line_calls map app]. now rewrite <- app_assoc.
    + intros p1 x p2 ->. rewrite <- app_assoc.
      exact (Hret (l :: p1) x p2 eq_refl).
Qed.

(** ** Further properties of the streaming read *)

Section Streaming.

Variables (w : World) (e : JsEngine) (id : nat) (jsValues : JsValueList) (f g : JsValue).
Hypothesis alive : weakJsEngine w = Some e.
Hypothesis stored : jsWeakValuesLists e !! id = Some jsValues.
Hypothesis listener : jsValues !! 0 = Some f.
Hypothesis done : jsValues !! 1 = Some g.

Lemma streaming_run content :
  ReadFromFileCallback_done id content "" w =
    (Done tt, record_calls (deliver (script w) id f g (calls w) (visited_lines content))
                (with_engine (erase id e) w)).
Proof. exact (ReadFromFileCallback_done_lines w e id jsValues alive stored content f g listener done). Qed.

(** Buffers with the same lines are read alike, whatever the native error. *)
Lemma streaming_same_lines content1 content2 error :
  BufferToLines content1 = BufferToLines content2 ->
  ReadFromFileCallback_done id content1 error w = ReadFromFileCallback_done id content2 error w.
Proof.
  intros Hsame. destruct (error_empty_dec error) as [[-> _]|[Hne _]].
  - rewrite !streaming_run. unfold visited_lines. now rewrite Hsame.
  - now rewrite !(ReadFromFileCallback_done_failed w e id jsValues alive stored _ error g Hne done).
Qed.

End Streaming.

(** X3: with a live engine and no native error, for every buffer and every
    script, the calls of the streaming read are per-line calls for an initial
    part of the lines of the buffer, at least one and in order, followed by
    one call of the completion callback; the completion callback gets no
    argument only when every line was delivered. *)
Theorem X3_streaming_read_delivers_initial_lines id content w e (jsValues : JsValueList) f g :
  weakJsEngine w = Some e ->
  jsWeakValuesLists e !! id = Some jsValues ->
  jsValues !! 0 = Some f ->
  jsValues !! 1 = Some g ->
  exists (delivered rest : list StringBuffer) args,
    visited_lines content = delivered ++ rest
    /\ delivered <> []
    /\ calls (snd (ReadFromFileCallback_done id content "" w))
       = calls w ++ line_calls id f delivered ++ [call_event id 1 g args]
    /\ ((args = [] /\ rest = []) \/ exists ex, args = [JsString (ExceptionToString ex)]).
Proof.
  intros Halive Hstored Hf Hg.
  destruct (deliver_prefix (script w) id f g (calls w) (visited_lines content))
    as (delivered & rest & args & Hsplit & Hcalls & Hne & Hargs).
  exists delivered, rest, args.
  rewrite (streaming_run w e id jsValues f g Halive Hstored Hf Hg content).
  cbn [snd calls record_calls with_engine]. rewrite Hcalls.
  repeat split; [exact Hsplit | apply Hne, visited_lines_nonempty | exact Hargs].
Qed.

Lemma X3_witness :
  exists (delivered rest : list StringBuffer) args,
    visited_lines abc = delivered ++ rest
    /\ delivered <> []
    /\ calls (snd (ReadFromFileCallback_done 0 abc "" (streaming_world throws_on_second_call)))
       = calls (streaming_world throws_on_second_call)
         ++ line_calls 0 (JsFunction 1) delivered
         ++ [call_event 0 1 (JsFunction 2) args]
    /\ ((args = [] /\ rest = []) \/ exists ex, args = [JsString (ExceptionToString ex)]).
Proof.
  apply (X3_streaming_read_delivers_initial_lines 0 abc (streaming_world throws_on_second_call)
           (emplace [JsFunction 1; JsFunction 2] engine0) [JsFunction 1; JsFunction 2]);
    reflexivity.
Defined.

(** X4: no text handed to the per-line callback holds a CR or an LF, and none
    is empty, except the single empty text delivered for a buffer without any
    byte other than terminators. *)
Theorem X4_delivered_lines_hold_no_terminator id content w e (jsValues : JsValueList) f g :
  weakJsEngine w = Some e ->
  jsWeakValuesLists e !! id = Some jsValues ->
  jsValues !! 0 = Some f ->
  jsValues !! 1 = Some g ->
  exists w' (delivered : list StringBuffer) args,
    ReadFromFileCallback_done id content "" w = (Done tt, w')
    /\ calls w' = calls w ++ line_calls id f delivered ++ [call_event id 1 g args]
    /\ Forall (fun l => is_line l = true) delivered
    /\ ((forallb IsEndOfLine content = true /\ delivered = [[]])
        \/ Forall (fun l => l <> []) delivered).
Proof.
  intros Halive Hstored Hf Hg.
  destruct (deliver_prefix (script w) id f g (calls w) (visited_lines content))
    as (delivered & rest & args & Hsplit & Hcalls & Hne & Hargs).
  eexists. exists delivered, args.
  split; [exact (streaming_run w e id jsValues f g Halive Hstored Hf Hg content)|].
  cbn [calls record_calls with_engine]. rewrite Hcalls. split; [reflexivity|].
  specialize (Hne (visited_lines_nonempty content)).
  pose proof (BufferToLines_lines content) as Hlines.
  unfold visited_lines in Hsplit.
  destruct (BufferToLines content) as [|l ls] eqn:Hb.
  - assert (delivered = [[]]) as ->.
    { destruct delivered as [|d [|d' ds]]; [congruence | | discriminate].
      now injection Hsplit as <- _. }
    split; [repeat constructor|]. left. split; [now apply BufferToLines_nil | reflexivity].
  - rewrite Hsplit in Hlines. apply Forall_app in Hlines as [Hd _].
    split; [|right]; (eapply Forall_impl; [exact Hd|]); now intros x [? ?].
Qed.

Lemma X4_witness :
  exists w' (delivered : list StringBuffer) args,
    ReadFromFileCallback_done 0 abc "" (streaming_world quiet) = (Done tt, w')
    /\ calls w' = calls (streaming_world quiet) ++ line_calls 0 (JsFunction 1) delivered
                  ++ [call_event 0 1 (JsFunction 2) args]
    /\ Forall (fun l => is_line l = true) delivered
    /\ ((forallb IsEndOfLine abc = true /\ delivered = [[]])
        \/ Forall (fun l => l <> []) delivered).
Proof.
  apply (X4_delivered_lines_hold_no_terminator 0 abc (streaming_world quiet)
           (emplace [JsFunction 1; JsFunction 2] engine0) [JsFunction 1; JsFunction 2]);
    reflexivity.
Defined.

(** X5: when the per-line callback never throws, every line of the buffer is
    delivered, in order, before the completion callback is called without
    argument; the texts delivered, joined, are the content without its
    terminators, so no other byte is lost, added or moved. *)
Theorem X5_all_lines_delivered_when_nothing_throws id content w e (jsValues : JsValueList) f g :
  weakJsEngine w = Some e ->
  jsWeakValuesLists e !! id = Some jsValues ->
  jsValues !! 0 = Some f ->
  jsValues !! 1 = Some g ->
  (forall history args, script w history f args = Returned) ->
  exists w',
    ReadFromFileCallback_done id content "" w = (Done tt, w')
    /\ calls w' = calls w ++ line_calls id f (visited_lines content) ++ [call_event id 1 g []]
    /\ concat (visited_lines content) = List.filter (fun c => negb (IsEndOfLine c)) content.
Proof.
  intros Halive Hstored Hf Hg Hquiet. eexists.
  split; [exact (streaming_run w e id jsValues f g Halive Hstored Hf Hg content)|].
  cbn [calls record_calls with_engine]. split.
  - f_equal.
    pose proof (deliver_returning (script w) id f g (calls w) (visited_lines content) []) as H.
    rewrite app_nil_r in H. rewrite H; [reflexivity|]. intros. apply Hquiet.
  - rewrite <- BufferToLines_concat. unfold visited_lines.
    now destruct (BufferToLines content).
Qed.

Lemma X5_witness :
  exists w',
    ReadFromFileCallback_done 0 abc "" (streaming_world quiet) = (Done tt, w')
    /\ calls w' = calls (streaming_world quiet)
                  ++ line_calls 0 (JsFunction 1) (visited_lines abc)
                  ++ [call_event 0 1 (JsFunction 2) []]
    /\ concat (visited_lines abc) = List.filter (fun c => negb (IsEndOfLine c)) abc.
Proof.
  apply (X5_all_lines_delivered_when_nothing_throws 0 abc (streaming_world quiet)
           (emplace [JsFunction 1; JsFunction 2] engine0) [JsFunction 1; JsFunction 2]);
    reflexivity.
Defined.

(** X6: the first exception of the per-line callback ends the delivery: the
    lines before it and the line it was raised on have been delivered, the
    completion callback is called with the description of the exception, and
    no later line is delivered, however many remain. *)
Theorem X6_first_exception_ends_delivery id content w e (jsValues : JsValueList) f g
  (pre post : list StringBuffer) l ex :
  weakJsEngine w = Some e ->
  jsWeakValuesLists e !! id = Some jsValues ->
  jsValues !! 0 = Some f ->
  jsValues !! 1 = Some g ->
  visited_lines content = pre ++ l :: post ->
  (forall p1 x p2, pre = p1 ++ x :: p2 ->
     script w (calls w ++ line_calls id f p1) f [StringBufferToV8String x] = Returned) ->
  script w (calls w ++ line_calls id f pre) f [StringBufferToV8String l] = Thrown ex ->
  exists w',
    ReadFromFileCallback_done id content "" w = (Done tt, w')
    /\ calls w' = calls w ++ line_calls id f (pre ++ [l])
                  ++ [call_event id 1 g [JsString (ExceptionToString ex)]].
Proof.
  intros Halive Hstored Hf Hg Hlines Hret Hthrow. eexists.
  split; [exact (streaming_run w e id jsValues f g Halive Hstored Hf Hg content)|].
  cbn [calls record_calls with_engine]. f_equal.
  rewrite Hlines, (deliver_returning _ _ _ _ _ _ _ Hret).
  cbn [deliver]. cbv zeta. rewrite Hthrow.
  rewrite line_calls_app, <- app_assoc. reflexivity.
Qed.

Lemma X6_witness :
  exists w',
    ReadFromFileCallback_done 0 abc "" (streaming_world throws_on_second_call) = (Done tt, w')
    /\ calls w' = calls (streaming_world throws_on_second_call)
                  ++ line_calls 0 (JsFunction 1) ([[x61]] ++ [[x62]])
                  ++ [call_event 0 1 (JsFunction 2)
                        [JsString (ExceptionToString {| description := "boom" |})]].
Proof.
  apply (X6_first_exception_ends_delivery 0 abc (streaming_world throws_on_second_call)
           (emplace [JsFunction 1; JsFunction 2] engine0) [JsFunction 1; JsFunction 2]
           (JsFunction 1) (JsFunction 2) [[x61]] [[x63]] [x62] {| description := "boom" |});
    try reflexivity.
  intros p1 x p2 Hpre. destruct p1 as [|? [|? ?]]; [|discriminate Hpre|discriminate Hpre].
  reflexivity.
Defined.

(** X7: the streaming read does not tell line endings apart: a run of
    terminators between two parts of the buffer can be replaced by its first
    byte alone, so CR LF, LF and repeated empty lines all give the same calls,
    with or without a native error. *)
Theorem X7_terminator_runs_read_as_one id w e (jsValues : JsValueList) f g
  (a b t : StringBuffer) t0 error :
  weakJsEngine w = Some e ->
  jsWeakValuesLists e !! id = Some jsValues ->
  jsValues !! 0 = Some f ->
  jsValues !! 1 = Some g ->
  IsEndOfLine t0 = true ->
  forallb IsEndOfLine t = true ->
  ReadFromFileCallback_done id (a ++ t0 :: t ++ b) error w
  = ReadFromFileCallback_done id (a ++ t0 :: b) error w.
Proof.
  intros Halive Hstored Hf Hg H0 Ht.
  apply (streaming_same_lines w e id jsValues f g Halive Hstored Hf Hg).
  now apply BufferToLines_terminator_run.
Qed.

Lemma X7_witness :
  ReadFromFileCallback_done 0 ([x61] ++ x0d :: [x0a; x0a] ++ [x62]) "" (streaming_world quiet)
  = ReadFromFileCallback_done 0 ([x61] ++ x0d :: [x62]) "" (streaming_world quiet).
Proof.
  apply (X7_terminator_runs_read_as_one 0 (streaming_world quiet)
           (emplace [JsFunction 1; JsFunction 2] engine0) [JsFunction 1; JsFunction 2]
           (JsFunction 1) (JsFunction 2)); reflexivity.
Defined.

(** X8: terminators at the start and at the end of the buffer make no
    difference to the streaming read: in particular a final newline does not
    produce an empty last line. *)
Theorem X8_outer_terminators_are_ignored id w e (jsValues : JsValueList) f g
  (leading content trailing : StringBuffer) error :
  weakJsEngine w = Some e ->
  jsWeakValuesLists e !! id = Some jsValues ->
  jsValues !! 0 = Some f ->
  jsValues !! 1 = Some g ->
  forallb IsEndOfLine leading = true ->
  forallb IsEndOfLine trailing = true ->
  ReadFromFileCallback_done id (leading ++ content ++ trailing) error w
  = ReadFromFileCallback_done id content error w.
Proof.
  intros Halive Hstored Hf Hg Hl Ht.
  apply (streaming_same_lines w e id jsValues f g Halive Hstored Hf Hg).
  rewrite (BufferToLines_leading_terminators leading _ Hl).
  now apply BufferToLines_trailing_terminators.
Qed.

Lemma X8_witness :
  ReadFromFileCallback_done 0 ([x0a] ++ abc ++ [x0d; x0a]) "" (streaming_world quiet)
  = ReadFromFileCallback_done 0 abc "" (streaming_world quiet).
Proof.
  apply (X8_outer_terminators_are_ignored 0 (streaming_world quiet)
           (emplace [JsFunction 1; JsFunction 2] engine0) [JsFunction 1; JsFunction 2]
           (JsFunction 1) (JsFunction 2)); reflexivity.
Defined.

(** ** Further properties of the dispatchers *)

Ltac run_dispatcher Halive :=
  cbn [dispatch];
  unfold ReadCallback, ReadFromFileCallback, WriteCallback, MoveCallback,
    RemoveCallback, StatCallback, bind, FromArguments, StoreJsValues,
    ThrowExceptionInJS, WithFileSystem, convert, ret, raise;
  rewrite ?Halive.

(** X9: a dispatcher called with file names that are strings and callbacks
    that are functions stores the callbacks as one group under the next
    token and submits one request, which carries the arguments in the order
    they were given (for move: source first, target second) and a closure for
    that token. *)
Theorem X9_requests_carry_the_arguments w e (fileName other : string) (cb cb2 : JsValue) :
  weakJsEngine w = Some e ->
  IsFunction cb = true ->
  IsFunction cb2 = true ->
  let id := nextWeakValuesID e in
  let stored values := with_engine (emplace values e) w in
  ReadCallback [JsString fileName; cb] w
  = (Done tt, submit (FsRead fileName (ReadDone id)) (stored [cb]))
  /\ ReadFromFileCallback [JsString fileName; cb; cb2] w
     = (Done tt, submit (FsRead fileName (ReadFromFileDone id)) (stored [cb; cb2]))
  /\ WriteCallback [JsString fileName; JsString other; cb] w
     = (Done tt, submit (FsWrite fileName (String.list_byte_of_string other) (WriteDone id))
                   (stored [cb]))
  /\ MoveCallback [JsString fileName; JsString other; cb] w
     = (Done tt, submit (FsMove fileName other (MoveDone id)) (stored [cb]))
  /\ RemoveCallback [JsString fileName; cb] w
     = (Done tt, submit (FsRemove fileName (RemoveDone id)) (stored [cb]))
  /\ StatCallback [JsString fileName; cb] w
     = (Done tt, submit (FsStat fileName (StatDone id)) (stored [cb])).
Proof.
  intros Halive Hcb Hcb2. cbv zeta.
  repeat split;
    unfold ReadCallback, ReadFromFileCallback, WriteCallback, MoveCallback,
      RemoveCallback, StatCallback, bind, FromArguments, StoreJsValues,
      ThrowExceptionInJS, WithFileSystem, convert, ret, raise;
    rewrite ?Halive; cbn; rewrite ?Hcb, ?Hcb2; cbn; rewrite ?Halive; reflexivity.
Qed.

Lemma X9_witness :
  MoveCallback [JsString "patterns.ini-temp"; JsString "patterns.ini"; JsFunction 1]
    (fresh_world quiet)
  = (Done tt,
     submit (FsMove "patterns.ini-temp" "patterns.ini" (MoveDone 0))
       (with_engine (emplace [JsFunction 1] engine0) (fresh_world quiet))).
Proof.
  apply (X9_requests_carry_the_arguments (fresh_world quiet) engine0
           "patterns.ini-temp" "patterns.ini" (JsFunction 1) (JsFunction 1));
    reflexivity.
Defined.

(** X10: no dispatcher calls a script function: whatever the arguments and
    whether it returns or throws, the log of script calls is as before. *)
Theorem X10_dispatchers_call_nothing op (converted : JsValueList) w :
  calls (snd (dispatch op converted w)) = calls w.
Proof.
  destruct (weakJsEngine w) as [e|] eqn:Halive;
    destruct op; run_dispatcher Halive; try reflexivity;
    repeat match goal with
    | |- context [if negb ?c then _ else _] => destruct c; cbn [negb]
    | |- context [AsString ?v] => destruct (AsString v)
    | |- context [AsStringBuffer ?v] => destruct (AsStringBuffer v)
    | _ => progress (rewrite ?Halive; cbn [with_engine weakJsEngine snd calls submit])
    end; reflexivity.
Qed.

(** X11: the dispatchers store the callbacks before they convert the other
    arguments.  When the argument list passed the checks and the conversion
    of the file name fails, the dispatcher ends with a native exception, the
    group is already in the registry under the next token, and no request has
    been submitted. *)
Theorem X11_failed_conversion_leaves_group_stored op (converted : JsValueList) w e :
  weakJsEngine w = Some e ->
  well_formed op converted = true ->
  AsString (converted !!! 0) = None ->
  exists what,
    dispatch op converted w
    = (Raised (NativeException what),
       with_engine (emplace (stored_values op converted) e) w).
Proof.
  intros Halive Hwf Hname. unfold well_formed in Hwf.
  apply andb_true_iff in Hwf as [Hlen Hfun].
  destruct op; cbn [arity callback_positions forallb] in *;
    repeat match goal with
    | H : _ && _ = true |- _ => apply andb_true_iff in H as [? ?]
    end;
    run_dispatcher Halive; rewrite Hlen; cbn [negb];
    repeat match goal with H : IsFunction _ = true |- _ => rewrite H; clear H end;
    cbn [negb]; rewrite ?Halive, ?Hname;
    try (destruct (AsStringBuffer (converted !!! 1)));
    try (destruct (AsString (converted !!! 1)));
    rewrite ?Hname; eexists; reflexivity.
Qed.

Lemma X11_witness :
  exists what,
    dispatch read [JsNumber 5; JsFunction 1] (fresh_world quiet)
    = (Raised (NativeException what),
       with_engine (emplace (stored_values read [JsNumber 5; JsFunction 1]) engine0)
         (fresh_world quiet)).
Proof.
  apply (X11_failed_conversion_leaves_group_stored read [JsNumber 5; JsFunction 1]
           (fresh_world quiet) engine0); reflexivity.
Defined.

(** X12: the length of the argument list is checked first: with a wrong
    number of arguments every dispatcher throws the script exception
    "_fileSystem.<name> requires <arity> parameters", whatever the arguments
    are, and changes nothing. *)
Theorem X12_wrong_argument_count_message op (converted : JsValueList) w e :
  weakJsEngine w = Some e ->
  length converted <> arity op ->
  dispatch op converted w
  = (Raised (ScriptException
               (String.append "_fileSystem."
                  (String.append (operation_name op)
                     (String.append " requires "
                        (String.append (arity_digit op) " parameters"))))), w).
Proof.
  intros Halive Hlen. apply Nat.eqb_neq in Hlen.
  destruct op; cbn [arity] in Hlen; run_dispatcher Halive; rewrite Hlen; reflexivity.
Qed.

Lemma X12_witness :
  dispatch write [JsString "patterns.ini"; JsFunction 1] (fresh_world quiet)
  = (Raised (ScriptException "_fileSystem.write requires 3 parameters"), fresh_world quiet).
Proof.
  apply (X12_wrong_argument_count_message write [JsString "patterns.ini"; JsFunction 1]
           (fresh_world quiet) engine0); [reflexivity | discriminate].
Defined.

(** ** Further properties of the completion handlers *)


(** Every call of a handler is a call of a function of its own group. *)
Lemma complete_live k result w e (jsValues : JsValueList) :
  weakJsEngine w = Some e ->
  jsWeakValuesLists e !! token k = Some jsValues ->
  final_index k < length jsValues ->
  fits k result = true ->
  exists new,
    complete k result w = (Done tt, record_calls new (with_engine (erase (token k) e) w))
    /\ new <> []
    /\ Forall (fun ev => group ev = token k /\ jsValues !! index ev = Some (callee ev)) new.
Proof.
  intros Halive Hstored Hlen Hfits.
  assert (exists f, jsValues !! 0 = Some f) as [f Hf].
  { apply lookup_lt_is_Some_2. lia. }
  destruct k as [id|id|id|id|id|id];
    destruct result as [content error|error|statResult error];
    try discriminate Hfits; cbn [complete token final_index] in *.
  - eexists. split;
      [exact (ReadCallback_done_live w e id jsValues Halive Hstored content error f Hf)|].
    split; [discriminate|]. repeat constructor. exact Hf.
  - assert (exists g, jsValues !! 1 = Some g) as [g Hg].
    { apply lookup_lt_is_Some_2. lia. }
    destruct (error_empty_dec error) as [[-> _]|[Hne _]].
    + eexists. split;
        [exact (ReadFromFileCallback_done_lines w e id jsValues Halive Hstored content f g
                  Hf Hg)|].
      destruct (deliver_shape (script w) id f g (calls w) (visited_lines content))
        as (lineCalls & args & -> & Hall & _ & _).
      split; [intros Hnil; apply app_eq_nil in Hnil as [_ Hnil]; discriminate Hnil|].
      apply Forall_app. split.
      * eapply Forall_impl; [exact Hall|]. intros ev (Hgroup & Hindex & Hcallee).
        rewrite Hindex, Hcallee. now split.
      * repeat constructor. exact Hg.
    + eexists. split;
        [exact (ReadFromFileCallback_done_failed w e id jsValues Halive Hstored content error g
                  Hne Hg)|].
      split; [discriminate|]. repeat constructor. exact Hg.
  - eexists. split;
      [exact (WriteCallback_done_live w e id jsValues Halive Hstored error f Hf)|].
    split; [discriminate|]. repeat constructor. exact Hf.
  - eexists. split;
      [exact (MoveCallback_done_live w e id jsValues Halive Hstored error f Hf)|].
    split; [discriminate|]. repeat constructor. exact Hf.
  - eexists. split;
      [exact (RemoveCallback_done_live w e id jsValues Halive Hstored error f Hf)|].
    split; [discriminate|]. repeat constructor. exact Hf.
  - eexists. split;
      [exact (StatCallback_done_live w e id jsValues Halive Hstored statResult error f Hf)|].
    split; [discriminate|]. repeat constructor. exact Hf.
Qed.

(** X13: a completion handler that finds the engine alive and, under its
    token, a group with enough callbacks calls at least one function and only
    functions of that group, each at the position it has in the group. *)
Theorem X13_completion_calls_only_its_group k result w e (jsValues : JsValueList) :
  weakJsEngine w = Some e ->
  jsWeakValuesLists e !! token k = Some jsValues ->
  final_index k < length jsValues ->
  fits k result = true ->
  exists new,
    calls (snd (complete k result w)) = calls w ++ new
    /\ new <> []
    /\ Forall (fun ev => group ev = token k /\ jsValues !! index ev = Some (callee ev)) new.
Proof.
  intros Halive Hstored Hlen Hfits.
  destruct (complete_live k result w e jsValues Halive Hstored Hlen Hfits)
    as (new & Hrun & Hcalls & Hnew).
  exists new. rewrite Hrun. cbn [snd calls record_calls with_engine].
  split; [reflexivity|]. now split.
Qed.

Lemma X13_witness :
  exists new,
    calls (snd (complete (StatDone 0)
                  (StatOutcome {| exists_ := true; lastModified := 1500 |} "") stat_world))
    = calls stat_world ++ new
    /\ new <> []
    /\ Forall (fun ev => group ev = token (StatDone 0)
                         /\ [JsFunction 1] !! index ev = Some (callee ev)) new.
Proof.
  apply (X13_completion_calls_only_its_group (StatDone 0)
           (StatOutcome {| exists_ := true; lastModified := 1500 |} "") stat_world
           (emplace [JsFunction 1] engine0) [JsFunction 1]);
    [reflexivity | reflexivity | cbn; lia | reflexivity].
Defined.




(** X16: when the native read reports an error the streaming read does not
    look at the buffer: whatever content comes with the error, and whatever
    the state of the engine and of the registry, the handler does the same. *)
Theorem X16_content_is_ignored_on_native_error id (content1 content2 : StringBuffer) error w :
  error <> "" ->
  ReadFromFileCallback_done id content1 error w
  = ReadFromFileCallback_done id content2 error w.
Proof.
  intros Hne. apply String.eqb_neq in Hne.
  unfold ReadFromFileCallback_done, bind, lock.
  destruct (weakJsEngine w) as [e|]; [|reflexivity].
  destruct (TakeJsValues id w) as [[jsValues|fault] w']; [|reflexivity].
  now rewrite Hne.
Qed.

Lemma X16_witness :
  ReadFromFileCallback_done 0 abc "disk failure" (streaming_world quiet)
  = ReadFromFileCallback_done 0 [] "disk failure" (streaming_world quiet).
Proof.
  apply (X16_content_is_ignored_on_native_error 0 abc [] "disk failure"
           (streaming_world quiet)). discriminate.
Defined.

(** ** Properties of object properties and of the registration *)

Lemma get_set_field_same name v ps : get_field name (set_field name v ps) = Some v.
Proof.
  induction ps as [|[k old] rest IH]; cbn [set_field get_field].
  - now rewrite String.eqb_refl.
  - destruct (String.eqb k name) eqn:Hk; cbn [get_field]; now rewrite Hk.
Qed.

Lemma get_set_field_other name name' v ps :
  name <> name' -> get_field name' (set_field name v ps) = get_field name' ps.
Proof.
  intros Hne. induction ps as [|[k old] rest IH]; cbn [set_field get_field].
  - apply String.eqb_neq in Hne. now rewrite Hne.
  - destruct (String.eqb_spec k name) as [->|Hk]; cbn [get_field].
    + apply String.eqb_neq in Hne. now rewrite Hne.
    + now rewrite IH.
Qed.

Lemma set_field_present name v ps : get_field name ps = Some v -> set_field name v ps = ps.
Proof.
  induction ps as [|[k old] rest IH]; cbn [set_field get_field]; [discriminate|].
  destruct (String.eqb k name); [now intros [= ->] | intros H; now rewrite IH].
Qed.

Lemma GetProperty_SetProperty_same name v ps :
  GetProperty name (SetProperty name v (JsObject ps)) = Some v.
Proof. apply get_set_field_same. Qed.

Lemma GetProperty_SetProperty_other name name' v obj :
  name <> name' -> GetProperty name' (SetProperty name v obj) = GetProperty name' obj.
Proof. intros Hne. destruct obj; try reflexivity. now apply get_set_field_other. Qed.

Lemma SetProperty_present name v obj :
  GetProperty name obj = Some v -> SetProperty name v obj = obj.
Proof.
  destruct obj; try discriminate. intros H. cbn [SetProperty]. f_equal.
  now apply set_field_present.
Qed.

Lemma SetProperty_object name v obj : IsObject (SetProperty name v obj) = IsObject obj.
Proof. now destruct obj. Qed.

(** X17: [Setup] makes each of the six operations available on the object
    under its own name, bound to its own dispatcher; it changes no property
    of another name, and running it again on its result changes nothing. *)
Theorem X17_Setup_registers_the_six_operations NewCallback obj :
  IsObject obj = true ->
  (forall op, GetProperty (operation_name op) (Setup NewCallback obj)
              = Some (NewCallback (dispatch op)))
  /\ (forall name, (forall op, operation_name op <> name) ->
        GetProperty name (Setup NewCallback obj) = GetProperty name obj)
  /\ Setup NewCallback (Setup NewCallback obj) = Setup NewCallback obj.
Proof.
  intros Hobj. destruct obj as [| | | | |ps]; try discriminate Hobj.
  assert (Hget : forall op, GetProperty (operation_name op) (Setup NewCallback (JsObject ps))
                            = Some (NewCallback (dispatch op))).
  { intros op. unfold Setup. cbv zeta. cbn [SetProperty GetProperty].
    destruct op; cbn [operation_name dispatch];
      rewrite ?get_set_field_other by discriminate;
      apply get_set_field_same. }
  split; [exact Hget|]. split.
  - intros name Hname. unfold Setup. cbv zeta.
    rewrite (GetProperty_SetProperty_other "stat") by exact (Hname stat).
    rewrite (GetProperty_SetProperty_other "remove") by exact (Hname remove).
    rewrite (GetProperty_SetProperty_other "move") by exact (Hname move).
    rewrite (GetProperty_SetProperty_other "write") by exact (Hname write).
    rewrite (GetProperty_SetProperty_other "readFromFile") by exact (Hname readFromFile).
    now rewrite (GetProperty_SetProperty_other "read") by exact (Hname read).
  - set (done := Setup NewCallback (JsObject ps)) in *.
    unfold Setup at 1. cbv zeta.
    repeat match goal with
    | |- context [SetProperty ?name ?v done] =>
        rewrite (SetProperty_present name v done)
    end; try reflexivity.
    + exact (Hget stat). + exact (Hget remove). + exact (Hget move).
    + exact (Hget write). + exact (Hget readFromFile). + exact (Hget read).
Qed.

Lemma X17_witness :
  GetProperty "move"
    (Setup (fun _ => JsFunction 7) (JsObject [("move", JsUndefined); ("other", JsNumber 1)]))
  = Some (JsFunction 7).
Proof.
  exact (proj1 (X17_Setup_registers_the_six_operations (fun _ => JsFunction 7)
                  (JsObject [("move", JsUndefined); ("other", JsNumber 1)]) eq_refl) move).
Defined.

(** X18: the result object of read has the property [content], the property
    [error] holding the native error string when that string is not empty,
    and no other property; the result object of stat has [exists],
    [lastModified], [error] under the same condition, and no other
    property. *)
Theorem X18_result_objects_have_no_other_property id w e (jsValues : JsValueList) f :
  weakJsEngine w = Some e ->
  jsWeakValuesLists e !! id = Some jsValues ->
  jsValues !! 0 = Some f ->
  (forall content error, exists result w',
      ReadCallback_done id content error w = (Done tt, w')
      /\ calls w' = calls w ++ [call_event id 0 f [result]]
      /\ forall name,
           GetProperty name result =
             if String.eqb "content" name then Some (StringBufferToV8String content)
             else if String.eqb "error" name && negb (String.eqb error "")
                  then Some (JsString error)
                  else None)
  /\ (forall statResult error, exists result w',
      StatCallback_done id statResult error w = (Done tt, w')
      /\ calls w' = calls w ++ [call_event id 0 f [result]]
      /\ forall name,
           GetProperty name result =
             if String.eqb "exists" name then Some (JsBoolean (exists_ statResult))
             else if String.eqb "lastModified" name
                  then Some (JsNumber (lastModified statResult))
                  else if String.eqb "error" name && negb (String.eqb error "")
                       then Some (JsString error)
                       else None).
Proof.
  intros Halive Hstored Hf. split.
  - intros content error. exists (read_result content error). eexists.
    split; [exact (ReadCallback_done_live w e id jsValues Halive Hstored content error f Hf)|].
    split; [reflexivity|]. intros name. unfold read_result.
    destruct (String.eqb error ""); cbn [GetProperty get_field negb];
      destruct (String.eqb "content" name); try reflexivity;
      destruct (String.eqb "error" name); reflexivity.
  - intros statResult error. exists (stat_result statResult error). eexists.
    split; [exact (StatCallback_done_live w e id jsValues Halive Hstored statResult error f Hf)|].
    split; [reflexivity|]. intros name. unfold stat_result.
    destruct (String.eqb error ""); cbn [GetProperty get_field negb];
      destruct (String.eqb "exists" name); try reflexivity;
      destruct (String.eqb "lastModified" name); try reflexivity;
      destruct (String.eqb "error" name); reflexivity.
Qed.

Lemma X18_witness :
  exists result w',
    ReadCallback_done 0 abc "disk failure" reading_world = (Done tt, w')
    /\ calls w' = calls reading_world ++ [call_event 0 0 (JsFunction 1) [result]]
    /\ forall name,
         GetProperty name result =
           if String.eqb "content" name then Some (StringBufferToV8String abc)
           else if String.eqb "error" name && negb (String.eqb "disk failure" "")
                then Some (JsString "disk failure")
                else None.
Proof.
  apply (X18_result_objects_have_no_other_property 0 reading_world
           (emplace [JsFunction 1] engine0) [JsFunction 1] (JsFunction 1));
    reflexivity.
Defined.
